(** * gpt-researcher: the page fetcher and the search client

    A shallow embedding of [actions/web_scrape.py] and [actions/web_search.py]
    and the properties of the two components.

    Conventions of the embedding.
    - A Python [str] is a [string]; a non-ASCII character is the bytes of its
      UTF-8 encoding, so substring, prefix and suffix tests against ASCII
      patterns agree with Python's, and the white-space characters and line
      boundaries outside ASCII are recognized by their encodings.
    - A Python [int] is a [Z].
    - A call that may raise returns a [res]; a function that prints, talks to
      the network or drives a browser runs in the monad [M], which threads the
      trace of observable events and stops at the first raised exception.
    - The collaborators (browser driver, HTML parser, PDF loader, arXiv
      retriever, summarizer, web socket, search vendors, [requests], [json])
      are fields of a [World] record: what each call answers, or raises. *)

From Stdlib Require Import String Ascii List ZArith Bool Lia.
Import ListNotations.
Local Open Scope list_scope.
Local Open Scope string_scope.
Set Warnings "-register-all".

(* ================================================================== *)
(** ** Python values, exceptions and effects *)

Module Py.

(** Subclasses of [Exception], the ones an [except Exception] clause
    catches.  [Raised cls msg] is an exception of a collaborator
    (TimeoutException, WebDriverException, ConnectionError, ...). *)
Inductive exn : Type :=
| KeyError (key : string)
| TypeError (msg : string)
| AttributeError (msg : string)
| IndexError (msg : string)
| JSONDecodeError (msg : string)
| Raised (cls msg : string).

(** A type name between single quotes, as the messages of [TypeError] and
    [AttributeError] show it. *)
Definition quote (k : string) : string := "'" ++ k ++ "'".

Inductive res (A : Type) : Type :=
| Ok (a : A)
| Raise (e : exn).
Arguments Ok {A} a.
Arguments Raise {A} e.

Definition is_ok {A} (r : res A) : bool :=
  match r with Ok _ => true | Raise _ => false end.

(** The effect monad: a trace of events of type [E] is threaded through,
    events are only ever appended. *)
Definition M (E A : Type) : Type := list E -> res A * list E.

Definition ret {E A} (a : A) : M E A := fun tr => (Ok a, tr).

Definition bind {E A B} (m : M E A) (k : A -> M E B) : M E B :=
  fun tr => match m tr with
            | (Ok a, tr') => k a tr'
            | (Raise e, tr') => (Raise e, tr')
            end.

Definition raise {E A} (e : exn) : M E A := fun tr => (Raise e, tr).

Definition emit {E} (ev : E) : M E unit := fun tr => (Ok tt, (tr ++ [ev])%list).

(** A pure computation that may raise. *)
Definition lift {E A} (r : res A) : M E A := fun tr => (r, tr).

(** [try: body except Exception as e: handler(e)]. *)
Definition try_except {E A} (body : M E A) (handler : exn -> M E A) : M E A :=
  fun tr => match body tr with
            | (Ok a, tr') => (Ok a, tr')
            | (Raise e, tr') => handler e tr'
            end.

(** The trace so far. *)
Definition get_trace {E} : M E (list E) := fun tr => (Ok tr, tr).

(** The events a computation adds when started on the empty trace. *)
Definition run {E A} (m : M E A) : res A * list E := m [].

Module Notations.
Notation "x <- m ;; k" := (bind m (fun x => k))
  (at level 61, m at next level, right associativity).
Notation "' pat <- m ;; k" := (bind m (fun x => match x with pat => k end))
  (at level 61, pat pattern, m at next level, right associativity).
Notation "m ;;; k" := (bind m (fun _ => k))
  (at level 61, right associativity).
End Notations.

(* ------------------------------------------------------------------ *)
(** *** Strings *)

(** [pat in s] on two strings. *)
Fixpoint contains (pat s : string) : bool :=
  String.prefix pat s
  || match s with
     | EmptyString => false
     | String _ s' => contains pat s'
     end.

(** [s.endswith(suf)]. *)
Fixpoint endswith (s suf : string) : bool :=
  String.eqb s suf
  || match s with
     | EmptyString => false
     | String _ s' => endswith s' suf
     end.

Definition cons_head (a : ascii) (l : list string) : list string :=
  match l with
  | [] => [String a EmptyString]
  | h :: t => String a h :: t
  end.

(** [s.split(sep)] for a non-empty separator: the occurrences are found
    left to right and do not overlap; [skip] counts the characters of a
    matched separator still to be passed over. *)
Fixpoint split_go (sep : string) (skip : nat) (s : string) : list string :=
  match s with
  | EmptyString => [EmptyString]
  | String a s' =>
      match skip with
      | S k => split_go sep k s'
      | O => if String.prefix sep s
             then EmptyString :: split_go sep (String.length sep - 1) s'
             else cons_head a (split_go sep 0 s')
      end
  end.

Definition split (sep s : string) : list string := split_go sep 0 s.

(** [l[-1]] on a list of strings. *)
Definition last_item (l : list string) : res string :=
  match l with
  | [] => Raise (IndexError "list index out of range")
  | _ => Ok (List.last l EmptyString)
  end.

(** The newline character as a string. *)
Definition nl : string := String "010"%char EmptyString.

(** [sep.join(l)]. *)
Fixpoint join (sep : string) (l : list string) : string :=
  match l with
  | [] => EmptyString
  | [x] => x
  | x :: rest => x ++ sep ++ join sep rest
  end.

(** *** White space and line boundaries

    A character outside ASCII is the bytes of its UTF-8 encoding, so a
    white-space character or a line boundary is one, two or three bytes
    long.  In well-formed UTF-8 the encodings below occur at the start of a
    character only. *)

Definition byte_is (n : nat) (a : ascii) : bool := Nat.eqb (nat_of_ascii a) n.

(** The ASCII white space: U+0009..U+000D, U+001C..U+001F, U+0020. *)
Definition ascii_space (a : ascii) : bool :=
  let n := nat_of_ascii a in
  ((9 <=? n) && (n <=? 13) || (28 <=? n) && (n <=? 32))%nat.

(** U+0085 (C2 85) and U+00A0 (C2 A0). *)
Definition space2 (a b : ascii) : bool :=
  byte_is 194 a && (byte_is 133 b || byte_is 160 b).

(** U+1680 (E1 9A 80); U+2000..U+200A (E2 80 80..8A), U+2028, U+2029
    (E2 80 A8, A9), U+202F (E2 80 AF); U+205F (E2 81 9F); U+3000
    (E3 80 80). *)
Definition space3 (a b c : ascii) : bool :=
  byte_is 225 a && byte_is 154 b && byte_is 128 c
  || byte_is 226 a && byte_is 128 b
     && ((128 <=? nat_of_ascii c)%nat && (nat_of_ascii c <=? 138)%nat
         || byte_is 168 c || byte_is 169 c || byte_is 175 c)
  || byte_is 226 a && byte_is 129 b && byte_is 159 c
  || byte_is 227 a && byte_is 128 b && byte_is 128 c.

(** The number of bytes of the white-space character [s] starts with, [0]
    when it starts with none: the characters [str.isspace] accepts. *)
Definition space_len (s : string) : nat :=
  match s with
  | EmptyString => 0
  | String a s1 =>
      if ascii_space a then 1
      else match s1 with
           | EmptyString => 0
           | String b s2 =>
               if space2 a b then 2
               else match s2 with
                    | EmptyString => 0
                    | String c _ => if space3 a b c then 3 else 0
                    end
           end
  end.

(** [s.lstrip()]; [skip] counts the bytes of a white-space character still
    to be passed over. *)
Fixpoint lstrip_go (skip : nat) (s : string) : string :=
  match s with
  | EmptyString => EmptyString
  | String a s' =>
      match skip with
      | S k => lstrip_go k s'
      | O => match space_len s with
             | O => s
             | S k => lstrip_go k s'
             end
      end
  end.

Definition lstrip (s : string) : string := lstrip_go 0 s.

(** [s] is made of white-space characters only. *)
Fixpoint all_space_go (skip : nat) (s : string) : bool :=
  match s with
  | EmptyString => match skip with O => true | S _ => false end
  | String a s' =>
      match skip with
      | S k => all_space_go k s'
      | O => match space_len s with
             | O => false
             | S k => all_space_go k s'
             end
      end
  end.

Definition all_space (s : string) : bool := all_space_go 0 s.

(** [s.rstrip()]: [s] without its longest end made of white space. *)
Fixpoint rstrip (s : string) : string :=
  match s with
  | EmptyString => EmptyString
  | String a s' => if all_space s then EmptyString else String a (rstrip s')
  end.

(** [s.strip()]. *)
Definition strip (s : string) : string := rstrip (lstrip s).

(** The one-byte line boundaries other than CR: LF, VT, FF, FS, GS, RS. *)
Definition ascii_linebreak (a : ascii) : bool :=
  let n := nat_of_ascii a in
  ((10 <=? n) && (n <=? 12) || (28 <=? n) && (n <=? 30))%nat.

(** U+0085 (C2 85). *)
Definition linebreak2 (a b : ascii) : bool := byte_is 194 a && byte_is 133 b.

(** U+2028 and U+2029 (E2 80 A8, E2 80 A9). *)
Definition linebreak3 (a b c : ascii) : bool :=
  byte_is 226 a && byte_is 128 b && (byte_is 168 c || byte_is 169 c).

(** The number of bytes of the line boundary [s] starts with, [0] when it
    starts with none: the boundaries of [str.splitlines()]; CR LF is one
    boundary. *)
Definition linebreak_len (s : string) : nat :=
  match s with
  | EmptyString => 0
  | String a s1 =>
      if byte_is 13 a then
        match s1 with
        | EmptyString => 1
        | String b _ => if byte_is 10 b then 2 else 1
        end
      else if ascii_linebreak a then 1
      else match s1 with
           | EmptyString => 0
           | String b s2 =>
               if linebreak2 a b then 2
               else match s2 with
                    | EmptyString => 0
                    | String c _ => if linebreak3 a b c then 3 else 0
                    end
           end
  end.

(** [s.splitlines()]: the last line carries no empty tail
    (["a\n".splitlines() == ["a"]]); [skip] counts the bytes of a boundary
    still to be passed over. *)
Fixpoint splitlines_go (skip : nat) (s : string) : list string :=
  match s with
  | EmptyString => []
  | String a s' =>
      match skip with
      | S k => splitlines_go k s'
      | O => match linebreak_len s with
             | O => cons_head a (splitlines_go 0 s')
             | S k => EmptyString :: splitlines_go k s'
             end
      end
  end.

Definition splitlines (s : string) : list string := splitlines_go 0 s.

(** *** [repr] of a string *)

Definition hex_digit (n : nat) : ascii :=
  match String.get n "0123456789abcdef" with
  | Some c => c
  | None => "0"%char
  end.

(** One character of [repr(s)] between quotes [q]: the quote and the
    backslash are escaped, tab, newline and carriage return are written
    \t, \n and \r, the other control characters \xhh. *)
Definition repr_char (q a : ascii) : string :=
  let n := nat_of_ascii a in
  if Ascii.eqb a q || byte_is 92 a then String "092"%char (String a EmptyString)
  else if byte_is 9 a then String "092"%char "t"
  else if byte_is 10 a then String "092"%char "n"
  else if byte_is 13 a then String "092"%char "r"
  else if (n <? 32)%nat || byte_is 127 a then
    String "092"%char (String "x"%char
      (String (hex_digit (n / 16)) (String (hex_digit (n mod 16)) EmptyString)))
  else String a EmptyString.

Fixpoint repr_body (q : ascii) (s : string) : string :=
  match s with
  | EmptyString => EmptyString
  | String a s' => repr_char q a ++ repr_body q s'
  end.

(** [repr(s)]: between single quotes, or between double quotes when [s]
    has a single quote and no double quote.  The bytes of a character
    outside ASCII are kept, which is what Python does for the printable
    ones; the result is exact for ASCII strings. *)
Definition py_repr (s : string) : string :=
  let single := "039"%char in
  let double := "034"%char in
  let q := if contains (String single EmptyString) s
              && negb (contains (String double EmptyString) s)
           then double else single in
  String q (repr_body q s ++ String q EmptyString).


(** [str(e)], what an f-string interpolates for [{e}]; for a [KeyError] it
    is the [repr] of the key. *)
Definition str_exn (e : exn) : string :=
  match e with
  | KeyError k => py_repr k
  | TypeError m | AttributeError m | IndexError m | JSONDecodeError m => m
  | Raised _ m => m
  end.

End Py.

(* ================================================================== *)
(** ** JSON-shaped Python values *)

Module Json.
Import Py.

(** What [json.loads] and the vendors' client libraries hand back: [None],
    booleans, numbers, strings, lists and dicts.  A dict keeps its keys in
    insertion order and has each key once. *)
Inductive json : Type :=
| JNull
| JBool (b : bool)
| JInt (z : Z)
| JFloat (repr : string)
| JStr (s : string)
| JArr (items : list json)
| JObj (fields : list (string * json)).

Fixpoint lookup (k : string) (fields : list (string * json)) : option json :=
  match fields with
  | [] => None
  | (k', v) :: rest => if String.eqb k k' then Some v else lookup k rest
  end.

Definition type_name (v : json) : string :=
  match v with
  | JNull => "NoneType"
  | JBool _ => "bool"
  | JInt _ => "int"
  | JFloat _ => "float"
  | JStr _ => "str"
  | JArr _ => "list"
  | JObj _ => "dict"
  end.

(** [v[k]] for a string key [k]. *)
Definition subscript (v : json) (k : string) : res json :=
  match v with
  | JObj fields =>
      match lookup k fields with
      | Some x => Ok x
      | None => Raise (KeyError k)
      end
  | JArr _ => Raise (TypeError "list indices must be integers or slices, not str")
  | JStr _ => Raise (TypeError "string indices must be integers")
  | _ => Raise (TypeError (quote (type_name v) ++ " object is not subscriptable"))
  end.

(** [v.get(k, default)]. *)
Definition get_default (v : json) (k : string) (default : json) : res json :=
  match v with
  | JObj fields =>
      match lookup k fields with
      | Some x => Ok x
      | None => Ok default
      end
  | _ => Raise (AttributeError
                  (quote (type_name v) ++ " object has no attribute 'get'"))
  end.

Fixpoint chars (s : string) : list json :=
  match s with
  | EmptyString => []
  | String a s' => JStr (String a EmptyString) :: chars s'
  end.

(** The items a [for x in v] loop visits. *)
Definition iter (v : json) : res (list json) :=
  match v with
  | JArr items => Ok items
  | JObj fields => Ok (map (fun kv => JStr (fst kv)) fields)
  | JStr s => Ok (chars s)
  | _ => Raise (TypeError (quote (type_name v) ++ " object is not iterable"))
  end.

Definition is_str (needle : string) (v : json) : bool :=
  match v with
  | JStr s => String.eqb s needle
  | _ => false
  end.

(** [needle in v] for a string [needle]: substring test on a string,
    membership on a list, key membership on a dict. *)
Definition py_in (needle : string) (v : json) : res bool :=
  match v with
  | JStr s => Ok (contains needle s)
  | JArr items => Ok (existsb (is_str needle) items)
  | JObj fields => Ok (existsb (fun kv => String.eqb (fst kv) needle) fields)
  | _ => Raise (TypeError
                  ("argument of type " ++ quote (type_name v) ++ " is not iterable"))
  end.

(** [l[:n]]. *)
Definition slice_to {A} (l : list A) (n : Z) : list A :=
  if (0 <=? n)%Z then firstn (Z.to_nat n) l
  else firstn (Z.to_nat (Z.of_nat (length l) + n)) l.

End Json.

(* ================================================================== *)
(** ** The search client, [actions/web_search.py] *)

Module WebSearch.
Import Py Py.Notations Json.

(** An HTTP response object; only [resp.text] is read. *)
Record response : Type := { text : string }.

(** Configuration, environment and the five vendors.
    - [search_api]: [CFG.search_api]; [environ]: [os.environ];
    - [tavily_search key query]: [Client(key).search(query, search_depth="basic")];
    - [requests_post url headers payload], [requests_get url]: they answer
      [None], a response, or raise (a transport failure of [requests] is a
      raised exception); the body sent is [json.dumps(payload)];
    - [json_loads]: [json.loads];
    - [searx_results host query n]: [SearxSearchWrapper(searx_host=host).results(query, n)];
    - [ddgs_text query]: [DDGS().text(query)]. *)
Record World : Type := {
  search_api : string;
  environ : string -> option string;
  tavily_search : string -> string -> res json;
  requests_post : string -> list (string * string) -> json -> res (option response);
  requests_get : string -> res (option response);
  json_loads : string -> res json;
  searx_results : string -> string -> Z -> res json;
  ddgs_text : string -> res json
}.

(** Observable events: what is printed and each call that leaves the
    process. *)
Inductive event : Type :=
| Printed (line : string)
| CallTavily (api_key query : string)
| CallPost (url : string) (headers : list (string * string)) (payload : json)
| CallGet (url : string)
| CallSearx (host query : string) (num_results : Z)
| CallDdg (query : string).

Definition is_network (ev : event) : bool :=
  match ev with
  | Printed _ => false
  | _ => true
  end.

Definition network_calls (tr : list event) : list event := filter is_network tr.

(** [json.dumps(..)] and its keyword arguments. *)
Record dumps_opts : Type := { ensure_ascii : bool; indent : option nat }.

Definition dumps_default : dumps_opts := {| ensure_ascii := true; indent := None |}.
Definition dumps_pretty : dumps_opts := {| ensure_ascii := false; indent := Some 4%nat |}.

(** What a search function returns: [None] (a bare [return]) or the text
    [json.dumps(results, ..)] of a list; [Dumps o l] stands for that text. *)
Inductive output : Type :=
| RetNone
| Dumps (opts : dumps_opts) (results : list json).

Section WithWorld.
Variable w : World.

(** [os.environ[name]]. *)
Definition getenv (name : string) : M event string :=
  match environ w name with
  | Some v => ret v
  | None => raise (KeyError name)
  end.

Definition print (line : string) : M event unit := emit (Printed line).

(** A call to a collaborator: the call is recorded, then it answers. *)
Definition call {A} (ev : event) (answer : res A) : M event A :=
  emit ev ;;; lift answer.

Definition searching_line (query : string) : string :=
  "Searching with query " ++ query ++ "...".

(** [[f(obj) for obj in items]] where [f] may raise. *)
Fixpoint map_res {A B} (f : A -> res B) (items : list A) : res (list B) :=
  match items with
  | [] => Ok []
  | x :: rest =>
      match f x with
      | Raise e => Raise e
      | Ok y => match map_res f rest with
                | Raise e => Raise e
                | Ok ys => Ok (y :: ys)
                end
      end
  end.

(** [{"href": obj[href_key], "body": obj[body_key]}]. *)
Definition href_body (href_key body_key : string) (obj : json) : res json :=
  match subscript obj href_key with
  | Raise e => Raise e
  | Ok h =>
      match subscript obj body_key with
      | Raise e => Raise e
      | Ok b => Ok (JObj [("href", h); ("body", b)])
      end
  end.

(** The accumulation loop at the end of [web_search]: append, count, and
    stop once the count has reached [num_results]. *)
Fixpoint take_loop (num_results total_added : Z) (search_response search_results : list json)
  : list json :=
  match search_response with
  | [] => search_results
  | j :: rest =>
      let search_results := (search_results ++ [j])%list in
      let total_added := (total_added + 1)%Z in
      if (total_added >=? num_results)%Z then search_results
      else take_loop num_results total_added rest search_results
  end.

Definition finish (num_results : Z) (search_response : json) : M event output :=
  items <- lift (iter search_response) ;;
  ret (Dumps dumps_pretty (take_loop num_results 0 items [])).

(** The normalizing loop shared by the Serper and the Google branch:
    youtube results are skipped, the others are renamed. *)
Fixpoint normalize (results : list json) : res (list json) :=
  match results with
  | [] => Ok []
  | result :: rest =>
      match subscript result "link" with
      | Raise e => Raise e
      | Ok link =>
          match py_in "youtube.com" link with
          | Raise e => Raise e
          | Ok true => normalize rest
          | Ok false =>
              match subscript result "title" with
              | Raise e => Raise e
              | Ok title =>
                  match subscript result "snippet" with
                  | Raise e => Raise e
                  | Ok snippet =>
                      match normalize rest with
                      | Raise e => Raise e
                      | Ok out =>
                          Ok (JObj [("title", title); ("href", link); ("body", snippet)]
                                :: out)
                      end
                  end
              end
          end
      end
  end.

(** [try: json.loads(resp.text) except Exception: return]. *)
Definition loads_or_none (resp : response) : option json :=
  match json_loads w (text resp) with
  | Ok v => Some v
  | Raise _ => None
  end.

Definition serp_web_search (serp_api_key query : string) (num_results : Z) : M event output :=
  let url := "https://google.serper.dev/search" in
  let payload := JObj [("q", JStr query); ("num", JInt num_results)] in
  let headers := [("X-API-KEY", serp_api_key); ("Content-Type", "application/json")] in
  resp <- call (CallPost url headers payload) (requests_post w url headers payload) ;;
  match resp with
  | None => ret RetNone
  | Some resp =>
      match loads_or_none resp with
      | None => ret RetNone
      | Some JNull => ret RetNone
      | Some search_results =>
          results <- lift (subscript search_results "organic") ;;
          items <- lift (iter results) ;;
          search_results <- lift (normalize items) ;;
          print (searching_line query) ;;;
          ret (Dumps dumps_pretty search_results)
      end
  end.

Definition google_url (google_api_key google_cx query : string) : string :=
  "https://www.googleapis.com/customsearch/v1?key=" ++ google_api_key
  ++ "&cx=" ++ google_cx ++ "&q=" ++ query ++ "&start=1".

Definition google_web_search (google_api_key google_cx query : string) (num_result : Z)
  : M event output :=
  let url := google_url google_api_key google_cx query in
  resp <- call (CallGet url) (requests_get w url) ;;
  match resp with
  | None => ret RetNone
  | Some resp =>
      match loads_or_none resp with
      | None => ret RetNone
      | Some JNull => ret RetNone
      | Some search_results =>
          results <- lift (get_default search_results "items" (JArr [])) ;;
          items <- lift (iter results) ;;
          search_results <- lift (normalize items) ;;
          print (searching_line query) ;;;
          ret (Dumps dumps_pretty (slice_to search_results num_result))
      end
  end.

Definition web_search (query : string) (num_results : Z) : M event output :=
  print (searching_line query) ;;;
  if String.eqb query EmptyString then ret (Dumps dumps_default [])
  else if String.eqb (search_api w) "tavily" then
    key <- getenv "TAVILY_API_KEY" ;;
    answer <- call (CallTavily key query) (tavily_search w key query) ;;
    results <- lift (get_default answer "results" (JArr [])) ;;
    items <- lift (iter results) ;;
    search_response <- lift (map_res (href_body "url" "content") items) ;;
    finish num_results (JArr search_response)
  else if String.eqb (search_api w) "googleSerp" then
    key <- getenv "SERP_API_KEY" ;;
    serp_web_search key query num_results
  else if String.eqb (search_api w) "googleAPI" then
    key <- getenv "GOOGLE_API_KEY" ;;
    cx <- getenv "GOOGLE_CX" ;;
    google_web_search key cx query num_results
  else if String.eqb (search_api w) "searx" then
    host <- getenv "SEARX_URL" ;;
    results <- call (CallSearx host query num_results) (searx_results w host query num_results) ;;
    items <- lift (iter results) ;;
    search_response <- lift (map_res (href_body "link" "snippet") items) ;;
    finish num_results (JArr search_response)
  else if String.eqb (search_api w) "duckduckgo" then
    search_response <- call (CallDdg query) (ddgs_text w query) ;;
    finish num_results search_response
  else
    finish num_results (JArr []).

End WithWorld.

(** *** Vocabulary of the properties *)

(** The [href] field of an emitted result. *)
Definition href_of (entry : json) : option json :=
  match entry with
  | JObj fields => lookup "href" fields
  | _ => None
  end.

(** The test of the skip rule, [True] exactly when the result is skipped. *)
Definition mentions_youtube (link : json) : bool :=
  match py_in "youtube.com" link with
  | Ok b => b
  | Raise _ => false
  end.

(** The values of field [key] of the vendor's results, in the vendor's
    order. *)
Definition field_of (key : string) (items : list json) : res (list json) :=
  map_res (fun result => subscript result key) items.

Definition links_of : list json -> res (list json) := field_of "link".

Definition supported_provider (name : string) : bool :=
  String.eqb name "tavily" || String.eqb name "googleSerp"
  || String.eqb name "googleAPI" || String.eqb name "searx"
  || String.eqb name "duckduckgo".

(** [vendor_items w query n items]: the configured vendor was reachable
    and answered the list [items] of raw results (for an unsupported
    provider name nobody is asked and the list is empty). *)
Definition vendor_items (w : World) (query : string) (num_results : Z) (items : list json)
  : Prop :=
  if String.eqb (search_api w) "tavily" then
    exists key answer results,
      environ w "TAVILY_API_KEY" = Some key
      /\ tavily_search w key query = Ok answer
      /\ get_default answer "results" (JArr []) = Ok results
      /\ iter results = Ok items
  else if String.eqb (search_api w) "googleSerp" then
    exists key resp answer results,
      environ w "SERP_API_KEY" = Some key
      /\ requests_post w "https://google.serper.dev/search"
           [("X-API-KEY", key); ("Content-Type", "application/json")]
           (JObj [("q", JStr query); ("num", JInt num_results)]) = Ok (Some resp)
      /\ json_loads w (text resp) = Ok answer
      /\ subscript answer "organic" = Ok results
      /\ iter results = Ok items
  else if String.eqb (search_api w) "googleAPI" then
    exists key cx resp answer results,
      environ w "GOOGLE_API_KEY" = Some key
      /\ environ w "GOOGLE_CX" = Some cx
      /\ requests_get w (google_url key cx query) = Ok (Some resp)
      /\ json_loads w (text resp) = Ok answer
      /\ get_default answer "items" (JArr []) = Ok results
      /\ iter results = Ok items
  else if String.eqb (search_api w) "searx" then
    exists host results,
      environ w "SEARX_URL" = Some host
      /\ searx_results w host query num_results = Ok results
      /\ iter results = Ok items
  else if String.eqb (search_api w) "duckduckgo" then
    exists answer, ddgs_text w query = Ok answer /\ iter answer = Ok items
  else items = [].

(** [emitted api n items out]: what the branch of provider [api] makes of
    the raw results [items] when asked for [n] results. *)
Definition emitted (api : string) (n : Z) (items out : list json) : Prop :=
  if String.eqb api "tavily" then
    exists renamed, map_res (href_body "url" "content") items = Ok renamed
                    /\ out = take_loop n 0 renamed []
  else if String.eqb api "googleSerp" then
    normalize items = Ok out
  else if String.eqb api "googleAPI" then
    exists kept, normalize items = Ok kept /\ out = slice_to kept n
  else if String.eqb api "searx" then
    exists renamed, map_res (href_body "link" "snippet") items = Ok renamed
                    /\ out = take_loop n 0 renamed []
  else
    out = take_loop n 0 items [].

(** The branches that implement the skip rule. *)
Definition skips_youtube (api : string) : bool :=
  String.eqb api "googleSerp" || String.eqb api "googleAPI".

(** The vendor's field that becomes [href]. *)
Definition href_source (api : string) : string :=
  if String.eqb api "tavily" then "url" else "link".

(** What a branch without the skip rule makes of one raw result: the
    Tavily and the searx branch rename two fields, the others pass the
    result on. *)
Definition rename (api : string) (item : json) : res json :=
  if String.eqb api "tavily" then href_body "url" "content" item
  else if String.eqb api "searx" then href_body "link" "snippet" item
  else Ok item.

(** *** Sample worlds *)

(** A vendor result in the Serper / Google / searx shape. *)
Definition hit (link : string) : json :=
  JObj [("title", JStr "a title"); ("link", JStr link); ("snippet", JStr "a snippet")].

(** What the Serper and the Google branch make of [hit link]. *)
Definition renamed_hit (link : string) : json :=
  JObj [("title", JStr "a title"); ("href", JStr link); ("body", JStr "a snippet")].

(** A Tavily result. *)
Definition tavily_hit (url : string) : json :=
  JObj [("url", JStr url); ("content", JStr "some content")].

(** The world in which [api] is configured, every key is set and every
    vendor answers [answer] (over HTTP: a body that parses to [answer]). *)
Definition vendor (api : string) (answer : json) : World :=
  {| search_api := api;
     environ := fun _ => Some "secret";
     tavily_search := fun _ _ => Ok answer;
     requests_post := fun _ _ _ => Ok (Some {| text := "body" |});
     requests_get := fun _ => Ok (Some {| text := "body" |});
     json_loads := fun _ => Ok answer;
     searx_results := fun _ _ _ => Ok answer;
     ddgs_text := fun _ => Ok answer |}.

(** Serper answers two results, whatever [num] asked for. *)
Definition serper_two : World :=
  vendor "googleSerp"
    (JObj [("organic", JArr [hit "https://a.example"; hit "https://b.example"])]).

(** Serper answers three results, the second one from youtube. *)
Definition serper_mixed : World :=
  vendor "googleSerp"
    (JObj [("organic", JArr [hit "https://a.example";
                             hit "https://www.youtube.com/watch?v=1";
                             hit "https://b.example"])]).

(** Serper answers an error document: valid JSON without ["organic"]. *)
Definition serper_unauthorized : World :=
  vendor "googleSerp" (JObj [("message", JStr "Unauthorized.")]).

(** Google answers one item that has no ["snippet"]. *)
Definition google_partial : World :=
  vendor "googleAPI"
    (JObj [("items", JArr [JObj [("title", JStr "a title");
                                 ("link", JStr "https://a.example")]])]).

(** Tavily answers one result, from youtube. *)
Definition tavily_one : World :=
  vendor "tavily"
    (JObj [("results", JArr [tavily_hit "https://www.youtube.com/watch?v=1"])]).

(** Tavily answers one result whose [url] is the empty string. *)
Definition tavily_blank : World :=
  vendor "tavily" (JObj [("results", JArr [tavily_hit EmptyString])]).

(** The same with no route to the vendor: [requests] raises. *)
Definition offline (api : string) : World :=
  {| search_api := api;
     environ := fun _ => Some "secret";
     tavily_search := fun _ _ => Raise (Raised "ConnectionError" "connection refused");
     requests_post := fun _ _ _ => Raise (Raised "ConnectionError" "connection refused");
     requests_get := fun _ => Raise (Raised "ConnectionError" "connection refused");
     json_loads := fun _ => Raise (JSONDecodeError "Expecting value");
     searx_results := fun _ _ _ => Raise (Raised "ConnectionError" "connection refused");
     ddgs_text := fun _ => Raise (Raised "ConnectionError" "connection refused") |}.

(** A body that is not JSON. *)
Definition garbled (api : string) : World :=
  {| search_api := api;
     environ := fun _ => Some "secret";
     tavily_search := fun _ _ => Ok JNull;
     requests_post := fun _ _ _ => Ok (Some {| text := "<html>" |});
     requests_get := fun _ => Ok (Some {| text := "<html>" |});
     json_loads := fun _ => Raise (JSONDecodeError "Expecting value");
     searx_results := fun _ _ _ => Ok JNull;
     ddgs_text := fun _ => Ok JNull |}.

(** *** Further vocabulary *)

(** The provider a network call goes to.  A request over HTTP goes to the
    provider whose endpoint its URL names, and to none of them when the
    URL names another endpoint; a call of a client library goes to the
    service the library speaks to. *)
Definition provider_of (ev : event) : string :=
  match ev with
  | Printed _ => EmptyString
  | CallTavily _ _ => "tavily"
  | CallPost url _ _ =>
      if String.eqb url "https://google.serper.dev/search" then "googleSerp"
      else EmptyString
  | CallGet url =>
      if String.prefix "https://www.googleapis.com/customsearch/v1?" url
      then "googleAPI" else EmptyString
  | CallSearx _ _ _ => "searx"
  | CallDdg _ => "duckduckgo"
  end.

(** The credentials a network call presents are the ones the environment
    holds for its provider. *)
Definition presents (environ : string -> option string) (ev : event) : Prop :=
  match ev with
  | Printed _ => False
  | CallTavily api_key _ => environ "TAVILY_API_KEY" = Some api_key
  | CallPost _ headers _ =>
      exists key, environ "SERP_API_KEY" = Some key
                  /\ headers = [("X-API-KEY", key); ("Content-Type", "application/json")]
  | CallGet url =>
      exists key cx query,
        environ "GOOGLE_API_KEY" = Some key /\ environ "GOOGLE_CX" = Some cx
        /\ url = google_url key cx query
  | CallSearx host _ _ => environ "SEARX_URL" = Some host
  | CallDdg _ => True
  end.

(** What a network call asks for: the query, and the number of results
    where the call carries one. *)
Definition asks (query : string) (num_results : Z) (ev : event) : Prop :=
  match ev with
  | Printed _ => False
  | CallTavily _ q => q = query
  | CallPost _ _ payload => payload = JObj [("q", JStr query); ("num", JInt num_results)]
  | CallGet url => exists key cx, url = google_url key cx query
  | CallSearx _ q n => q = query /\ n = num_results
  | CallDdg q => q = query
  end.

(** The environment variables the branch of provider [api] reads, in the
    order in which it reads them. *)
Definition key_variables (api : string) : list string :=
  if String.eqb api "tavily" then ["TAVILY_API_KEY"]
  else if String.eqb api "googleSerp" then ["SERP_API_KEY"]
  else if String.eqb api "googleAPI" then ["GOOGLE_API_KEY"; "GOOGLE_CX"]
  else if String.eqb api "searx" then ["SEARX_URL"]
  else [].

(** [entry] is a dict with exactly the keys [keys], in this order. *)
Definition has_keys (keys : list string) (entry : json) : Prop :=
  exists fields, entry = JObj fields /\ map fst fields = keys.

(** The keys of the results a renaming branch builds. *)
Definition result_keys (api : string) : list string :=
  if skips_youtube api then ["title"; "href"; "body"] else ["href"; "body"].

(** The raw result is one the skip rule drops. *)
Definition is_youtube_result (result : json) : bool :=
  match subscript result "link" with
  | Ok link => mentions_youtube link
  | Raise _ => false
  end.

(** The answer of [requests] gives nothing to normalize: there is no
    response object, or its body does not parse, or it parses to [null]. *)
Definition unusable (w : World) (answer : res (option response)) : Prop :=
  answer = Ok None
  \/ exists resp,
       answer = Ok (Some resp)
       /\ (is_ok (json_loads w (text resp)) = false
           \/ json_loads w (text resp) = Ok JNull).

(** Google answers an error document: valid JSON without ["items"]. *)
Definition google_quota : World :=
  vendor "googleAPI" (JObj [("error", JObj [("code", JInt 429)])]).

End WebSearch.

(* ================================================================== *)
(** ** The page fetcher, [actions/web_scrape.py] *)

Module WebScrape.
Import Py Py.Notations Json.

Inductive browser : Type := Chrome | Safari | Firefox.

(** A browser options object: the arguments added so far, in order, and
    the experimental options. *)
Record options : Type := {
  kind : browser;
  arguments : list string;
  experimental : list (string * json)
}.

Definition add_argument (o : options) (arg : string) : options :=
  {| kind := kind o; arguments := (arguments o ++ [arg])%list; experimental := experimental o |}.

Definition add_experimental_option (o : options) (name : string) (value : json) : options :=
  {| kind := kind o; arguments := arguments o;
     experimental := (experimental o ++ [(name, value)])%list |}.

(** A [WebDriver] handle: the number of its browser session. *)
Definition driver : Type := nat.

(** Configuration, platform and the collaborators of the fetcher.
    - [selenium_web_browser], [user_agent]: the fields of [CFG];
      [platform]: [sys.platform];
    - [gecko_install]: [GeckoDriverManager().install()];
    - [new_driver o service]: [webdriver.Firefox], [webdriver.Safari] or
      [webdriver.Chrome] on the options [o];
    - [driver_get url]: [driver.get(url)]; [wait_for_body url]: the wait of
      at most 10 seconds for the body element;
    - [pymupdf_load url]: [str(PyMuPDFLoader(url).load())];
    - [arxiv_documents query]: the [page_content] of the documents the
      [ArxivRetriever] finds;
    - [outer_html url]: the script that returns [document.body.outerHTML];
    - [find_all_text html]: the texts of the h1..h5 and p elements of the
      parsed [html], in document order, script and style elements removed;
    - [read_overlay], [run_overlay]: reading [js/overlay.js] and running it;
    - [summarize_text]: [processing.text.summarize_text];
    - [page_source], [hyperlinks source url]: [driver.page_source] and
      [format_hyperlinks(extract_hyperlinks(soup, url))];
    - [str_of_list]: [str] of a list of strings, as an f-string shows it;
    - [send_json output]: [websocket.send_json] of a "logs" message;
    - [driver_quit]: [driver.quit()]. *)
Record World : Type := {
  selenium_web_browser : string;
  user_agent : string;
  platform : string;
  gecko_install : res string;
  new_driver : options -> option string -> res unit;
  driver_get : string -> res unit;
  wait_for_body : string -> res unit;
  pymupdf_load : string -> res string;
  arxiv_documents : string -> res (list string);
  outer_html : string -> res string;
  find_all_text : string -> list string;
  read_overlay : res string;
  run_overlay : string -> res unit;
  summarize_text : string -> string -> string -> res string;
  page_source : string -> res string;
  hyperlinks : string -> string -> res (list string);
  str_of_list : list string -> string;
  send_json : string -> res unit;
  driver_quit : res unit
}.

(** Observable events of a fetch.  [SessionOpened d] follows a driver
    constructor that returned; [Quit d] is [d.quit()]. *)
Inductive event : Type :=
| Printed (line : string)
| Sent (output : string)
| LogLevel (logger level : string)
| GeckoInstall
| StartBrowser (o : options)
| SessionOpened (d : driver)
| Navigate (d : driver) (url : string)
| WaitBody (d : driver) (timeout : nat)
| PdfExtract (url : string)
| ArxivRetrieve (query : string)
| DomHtml (d : driver)
| ReadOverlay
| Overlay (d : driver)
| Summarize (url text question : string) (d : driver)
| PageSource (d : driver)
| Quit (d : driver).

(** The sessions a trace opened, and the ones it released. *)
Fixpoint opened (tr : list event) : list driver :=
  match tr with
  | [] => []
  | SessionOpened d :: rest => d :: opened rest
  | _ :: rest => opened rest
  end.

Fixpoint released (tr : list event) : list driver :=
  match tr with
  | [] => []
  | Quit d :: rest => d :: released rest
  | _ :: rest => released rest
  end.

(** The sessions that are open at the end of the trace. *)
Definition still_open (tr : list event) : list driver :=
  filter (fun d => negb (existsb (Nat.eqb d) (released tr))) (opened tr).

(** A driver constructor was called, or returned a session. *)
Definition starts_browser (ev : event) : bool :=
  match ev with
  | StartBrowser _ | SessionOpened _ => true
  | _ => false
  end.

Section WithWorld.
Variable w : World.

Definition print (line : string) : M event unit := emit (Printed line).

Definition call {A} (ev : event) (answer : res A) : M event A :=
  emit ev ;;; lift answer.

(** [options_available[name]()]. *)
Definition options_available (name : string) : res options :=
  let fresh b := {| kind := b; arguments := []; experimental := [] |} in
  if String.eqb name "chrome" then Ok (fresh Chrome)
  else if String.eqb name "safari" then Ok (fresh Safari)
  else if String.eqb name "firefox" then Ok (fresh Firefox)
  else Raise (KeyError name).

(** A driver constructor: the browser is started and, when the constructor
    returns, the new session gets the next free number. *)
Definition start (o : options) (service : option string) : M event driver :=
  call (StartBrowser o) (new_driver w o service) ;;;
  tr <- get_trace ;;
  let d := length (opened tr) in
  emit (SessionOpened d) ;;;
  ret d.

Definition scrape_pdf_with_pymupdf (url : string) : M event string :=
  call (PdfExtract url) (pymupdf_load w url).

Definition scrape_pdf_with_arxiv (query : string) : M event string :=
  docs <- call (ArxivRetrieve query) (arxiv_documents w query) ;;
  match docs with
  | [] => raise (IndexError "list index out of range")
  | doc :: _ => ret doc
  end.

(** [get_text(soup)] over the texts of the h1..h5 and p elements. *)
Definition get_text (elements : list string) : string :=
  fold_left (fun text element => text ++ element ++ nl ++ nl) elements EmptyString.

(** Lines 171-173: strip the lines, split them on double spaces, strip the
    phrases, drop the empty ones, join with newlines. *)
Definition clean_text (text : string) : string :=
  let lines := map strip (splitlines text) in
  let chunks := flat_map (fun line => map strip (split "  " line)) lines in
  join nl (filter (fun chunk => negb (String.eqb chunk EmptyString)) chunks).

Definition scrape_text_with_selenium (url : string) : M event (driver * string) :=
  emit (LogLevel "selenium" "CRITICAL") ;;;
  options <- lift (options_available (selenium_web_browser w)) ;;
  let options := add_argument options ("user-agent=" ++ user_agent w) in
  let options := add_argument options "--headless" in
  let options := add_argument options "--enable-javascript" in
  d <- (if String.eqb (selenium_web_browser w) "firefox" then
          path <- call GeckoInstall (gecko_install w) ;;
          start options (Some path)
        else if String.eqb (selenium_web_browser w) "safari" then
          start options None
        else
          let options :=
            if String.eqb (platform w) "linux" || String.eqb (platform w) "linux2"
            then add_argument (add_argument options "--disable-dev-shm-usage")
                              "--remote-debugging-port=9222"
            else options in
          let options := add_argument options "--no-sandbox" in
          let options := add_experimental_option options "prefs"
                           (JObj [("download_restrictions", JInt 3)]) in
          start options None) ;;
  print ("scraping url " ++ url ++ "...") ;;;
  call (Navigate d url) (driver_get w url) ;;;
  call (WaitBody d 10) (wait_for_body w url) ;;;
  text <- (if endswith url ".pdf" then scrape_pdf_with_pymupdf url
           else if contains "arxiv" url then
             doc_num <- lift (last_item (split "/" url)) ;;
             scrape_pdf_with_arxiv doc_num
           else
             page_source <- call (DomHtml d) (outer_html w url) ;;
             ret (get_text (find_all_text w page_source))) ;;
  ret (d, clean_text text).

Definition scrape_links_with_selenium (d : driver) (url : string) : M event (list string) :=
  source <- call (PageSource d) (page_source w url) ;;
  lift (hyperlinks w source url).

Definition close_browser (d : driver) : M event unit :=
  call (Quit d) (driver_quit w).

Definition add_header (d : driver) : M event unit :=
  script <- call ReadOverlay (read_overlay w) ;;
  call (Overlay d) (run_overlay w script).

Definition summarize (url text question : string) (d : driver) : M event string :=
  call (Summarize url text question d) (summarize_text w url text question).

Definition send (output : string) : M event unit :=
  call (Sent output) (send_json w output).

Definition no_url_message : string :=
  "URLが指定されていないため、ウェブサイト閲覧のリクエストをキャンセルしました。".

Definition browse_website (url question : string) : M event (string * option driver) :=
  if String.eqb url EmptyString then ret (no_url_message, None)
  else
    '(d, text) <- scrape_text_with_selenium url ;;
    add_header d ;;;
    summary_text <- summarize url text question d ;;
    links <- scrape_links_with_selenium d url ;;
    let links := if (5 <? length links)%nat then firstn 5 links else links in
    close_browser d ;;;
    ret ("Answer gathered from website: " ++ summary_text ++ " " ++ nl ++ " " ++ nl
         ++ " Links: " ++ str_of_list w links, Some d).

Definition error_message (url : string) (e : exn) : string :=
  "Error processing the url " ++ url ++ ": " ++ str_exn e.

Definition error_line (url : string) (e : exn) : string :=
  "An error occurred while processing the url " ++ url ++ ": " ++ str_exn e.

Definition browsing_notice (url question : string) : string :=
  "🔎  " ++ url ++ " をブラウジングしています。 質問内容: " ++ question ++ "...".

Definition gathered_notice (url summary_text : string) : string :=
  "📝 URLから収集した情報 " ++ url ++ ": " ++ summary_text.

Definition gathered_message (url summary_text : string) : string :=
  "Information gathered from url " ++ url ++ ": " ++ summary_text.

(** The three submissions to the worker pool are awaited one after the
    other, so the coroutine is the sequence of its steps. *)
Definition async_browse (url question : string) : M event string :=
  print (question ++ "で " ++ url ++ "をスクレイピング中") ;;;
  send (browsing_notice url question) ;;;
  try_except
    ('(d, text) <- scrape_text_with_selenium url ;;
     add_header d ;;;
     summary_text <- summarize url text question d ;;
     send (gathered_notice url summary_text) ;;;
     ret (gathered_message url summary_text))
    (fun e =>
       print (error_line url e) ;;;
       ret (error_message url e)).

End WithWorld.

(** *** Vocabulary of the properties *)

Definition supported_browser (name : string) : bool :=
  String.eqb name "chrome" || String.eqb name "safari" || String.eqb name "firefox".

(** The calls that obtain the content of the page. *)
Definition is_extraction (ev : event) : bool :=
  match ev with
  | PdfExtract _ | ArxivRetrieve _ | DomHtml _ => true
  | _ => false
  end.

Definition extraction_calls (tr : list event) : list event := filter is_extraction tr.

(** [seg] is the final "/"-delimited segment of [url]: it has no "/" and
    it is all of [url] or what follows the last "/" of [url]. *)
Definition final_segment (url seg : string) : Prop :=
  contains "/" seg = false
  /\ (url = seg \/ exists pre, url = pre ++ "/" ++ seg).


(** *** Sample worlds *)

(** The world in which [name] is the configured browser on Linux,
    navigation answers [get], the wait for the body answers [wait], the
    summarizer answers [summary], and everything else succeeds. *)
Definition sample (name : string) (get : string -> res unit) (wait : res unit)
    (summary : res string) : World :=
  {| selenium_web_browser := name;
     user_agent := "Mozilla/5.0";
     platform := "linux";
     gecko_install := Ok "/usr/local/bin/geckodriver";
     new_driver := fun _ _ => Ok tt;
     driver_get := get;
     wait_for_body := fun _ => wait;
     pymupdf_load := fun _ => Ok "text of the pdf";
     arxiv_documents := fun _ => Ok ["text of the paper"];
     outer_html := fun _ => Ok "<body><h1>Title</h1><p>Some  text</p></body>";
     find_all_text := fun _ => ["Title"; "Some  text"];
     read_overlay := Ok "overlay()";
     run_overlay := fun _ => Ok tt;
     summarize_text := fun _ _ _ => summary;
     page_source := fun _ => Ok "<html></html>";
     hyperlinks := fun _ _ => Ok ["a (https://a.example)"];
     str_of_list := fun l => "[" ++ join ", " (map py_repr l) ++ "]";
     send_json := fun _ => Ok tt;
     driver_quit := Ok tt |}.

Definition example_url : string := "https://example.com".
Definition arxiv_url : string := "https://arxiv.org/abs/1706.03762".

(** Every collaborator succeeds. *)
Definition calm (name : string) : World :=
  sample name (fun _ => Ok tt) (Ok tt) (Ok "a summary").

(** The body never shows up: the wait times out. *)
Definition stalled (name : string) : World :=
  sample name (fun _ => Ok tt) (Raise (Raised "TimeoutException" "Message: "))
         (Ok "a summary").

(** The summarizer fails. *)
Definition tongue_tied (name : string) : World :=
  sample name (fun _ => Ok tt) (Ok tt)
         (Raise (Raised "RuntimeError" "summarizer unavailable")).

(** The driver refuses to navigate to the empty URL, as a real one does. *)
Definition picky (name : string) : World :=
  sample name
         (fun url => if String.eqb url EmptyString
                     then Raise (Raised "InvalidArgumentException"
                                        "Message: invalid argument")
                     else Ok tt)
         (Ok tt) (Ok "a summary").

(** *** Further vocabulary *)

(** The steps of a fetch that touch the browser or a collaborator. *)
Inductive step : Type :=
| Launch | Open | Go | Wait | Extract | ReadScript | Inject | Summary | Links | Close.

Definition step_of (ev : event) : option step :=
  match ev with
  | StartBrowser _ => Some Launch
  | SessionOpened _ => Some Open
  | Navigate _ _ => Some Go
  | WaitBody _ _ => Some Wait
  | PdfExtract _ | ArxivRetrieve _ | DomHtml _ => Some Extract
  | ReadOverlay => Some ReadScript
  | Overlay _ => Some Inject
  | Summarize _ _ _ _ => Some Summary
  | PageSource _ => Some Links
  | Quit _ => Some Close
  | Printed _ | Sent _ | LogLevel _ _ | GeckoInstall => None
  end.

Fixpoint steps (tr : list event) : list step :=
  match tr with
  | [] => []
  | ev :: rest =>
      match step_of ev with
      | Some st => st :: steps rest
      | None => steps rest
      end
  end.

(** The steps of a complete synchronous fetch, and of a complete
    asynchronous one. *)
Definition browse_steps : list step :=
  [Launch; Open; Go; Wait; Extract; ReadScript; Inject; Summary; Links; Close].

Definition async_steps : list step :=
  [Launch; Open; Go; Wait; Extract; ReadScript; Inject; Summary].

(** The notifications sent over the web socket, in order. *)
Fixpoint sent (tr : list event) : list string :=
  match tr with
  | [] => []
  | Sent output :: rest => output :: sent rest
  | _ :: rest => sent rest
  end.

(** The answer of [browse_website] for a summary and the links shown. *)
Definition answer_text (w : World) (summary_text : string) (links : list string) : string :=
  "Answer gathered from website: " ++ summary_text ++ " " ++ nl ++ " " ++ nl
  ++ " Links: " ++ str_of_list w links.

(** The arXiv retriever finds no document. *)
Definition no_papers (name : string) : World :=
  {| selenium_web_browser := name;
     user_agent := "Mozilla/5.0";
     platform := "darwin";
     gecko_install := Ok "/usr/local/bin/geckodriver";
     new_driver := fun _ _ => Ok tt;
     driver_get := fun _ => Ok tt;
     wait_for_body := fun _ => Ok tt;
     pymupdf_load := fun _ => Ok "text of the pdf";
     arxiv_documents := fun _ => Ok [];
     outer_html := fun _ => Ok "<body></body>";
     find_all_text := fun _ => [];
     read_overlay := Ok "overlay()";
     run_overlay := fun _ => Ok tt;
     summarize_text := fun _ _ _ => Ok "a summary";
     page_source := fun _ => Ok "<html></html>";
     hyperlinks := fun _ _ => Ok [];
     str_of_list := fun l => "[" ++ join ", " (map py_repr l) ++ "]";
     send_json := fun _ => Ok tt;
     driver_quit := Ok tt |}.

End WebScrape.

(* ================================================================== *)
(** ** Vocabulary for the cleaned-up text *)

Module Text.
Import Py.

(** A line boundary starts somewhere in [s]. *)
Fixpoint has_boundary (s : string) : bool :=
  match s with
  | EmptyString => false
  | String _ s' => (0 <? linebreak_len s)%nat || has_boundary s'
  end.

(** A chunk of cleaned-up text: not empty, no white space at either end,
    no line boundary and no run of two spaces inside. *)
Definition clean_chunk (c : string) : Prop :=
  c <> EmptyString
  /\ strip c = c
  /\ has_boundary c = false
  /\ contains "  " c = false.

End Text.

(* ================================================================== *)
(** ** Properties of the search client *)

Module WebSearchFacts.
Import Py Py.Notations Json WebSearch.

Ltac unfold_m :=
  unfold finish, getenv, call, print, bind, emit, lift, ret, raise, run in *.

#[local] Arguments subscript : simpl never.
#[local] Arguments get_default : simpl never.

(** Splits the first [match] or [if] scrutinee found in hypothesis [H]. *)
Ltac split_match H :=
  match type of H with
  | context [match ?x with _ => _ end] => destruct x eqn:?
  end.

(** *** The accumulation loop *)

Lemma take_loop_firstn : forall n l t acc,
  take_loop n t l acc = (acc ++ firstn (Z.to_nat (Z.max 1 (n - t))) l)%list.
Proof.
  intros n l; induction l as [|j rest IH]; intros t acc; simpl.
  - now rewrite firstn_nil, app_nil_r.
  - destruct (Z.geb_spec (t + 1) n) as [Hge|Hlt].
    + replace (Z.to_nat (Z.max 1 (n - t))) with 1%nat by lia. reflexivity.
    + rewrite IH, <- app_assoc. simpl.
      replace (Z.to_nat (Z.max 1 (n - t))) with (S (Z.to_nat (Z.max 1 (n - (t + 1))))) by lia.
      reflexivity.
Qed.

Lemma take_loop_prefix : forall n l,
  take_loop n 0 l [] = firstn (Z.to_nat (Z.max 1 n)) l.
Proof.
  intros. rewrite take_loop_firstn. simpl. now rewrite Z.sub_0_r.
Qed.

Lemma take_loop_bound : forall n l,
  (1 <= n)%Z -> (Z.of_nat (length (take_loop n 0 l [])) <= n)%Z.
Proof.
  intros n l Hn. rewrite take_loop_prefix.
  pose proof (firstn_le_length (Z.to_nat (Z.max 1 n)) l).
  rewrite length_firstn. lia.
Qed.

Lemma slice_to_bound : forall (l : list json) n,
  (0 <= n)%Z -> (Z.of_nat (length (slice_to l n)) <= n)%Z.
Proof.
  intros l n Hn. unfold slice_to.
  destruct (Z.leb_spec 0 n); [|lia]. rewrite length_firstn. lia.
Qed.

Lemma slice_to_prefix : forall (l : list json) n,
  exists k, slice_to l n = firstn k l.
Proof.
  intros. unfold slice_to. destruct (0 <=? n)%Z; eauto.
Qed.

(** *** The normalizing loops *)

Lemma map_res_length : forall A B (f : A -> res B) items out,
  map_res f items = Ok out -> length out = length items.
Proof.
  induction items as [|x rest IH]; simpl; intros out H.
  - now inversion H.
  - destruct (f x); [|discriminate].
    destruct (map_res f rest) eqn:E; [|discriminate].
    inversion H; subst. simpl. f_equal. now apply IH.
Qed.

Lemma map_res_Forall2 : forall A B (f : A -> res B) items out,
  map_res f items = Ok out -> Forall2 (fun x y => f x = Ok y) items out.
Proof.
  induction items as [|x rest IH]; simpl; intros out H.
  - inversion H. constructor.
  - destruct (f x) eqn:Ex; [|discriminate].
    destruct (map_res f rest) eqn:E; [|discriminate].
    inversion H; subst. constructor; auto.
Qed.

Lemma href_body_href : forall hk bk obj entry,
  href_body hk bk obj = Ok entry ->
  exists h, subscript obj hk = Ok h /\ href_of entry = Some h.
Proof.
  unfold href_body. intros hk bk obj entry H.
  destruct (subscript obj hk) as [h|]; [|discriminate].
  destruct (subscript obj bk); [|discriminate].
  inversion H. now exists h.
Qed.

Lemma map_href_body : forall hk bk items out,
  map_res (href_body hk bk) items = Ok out ->
  exists hrefs, field_of hk items = Ok hrefs /\ map href_of out = map Some hrefs.
Proof.
  unfold field_of.
  induction items as [|obj rest IH]; simpl; intros out H.
  - inversion H. now exists [].
  - destruct (href_body hk bk obj) as [entry|] eqn:E; [|discriminate].
    destruct (map_res (href_body hk bk) rest) as [out'|]; [|discriminate].
    inversion H; subst.
    destruct (href_body_href _ _ _ _ E) as (h & -> & Hh).
    destruct (IH _ eq_refl) as (hrefs & -> & Hm).
    exists (h :: hrefs). simpl. now rewrite Hh, Hm.
Qed.

Lemma normalize_skips_youtube : forall items out,
  normalize items = Ok out ->
  Forall (fun entry => exists h, href_of entry = Some h /\ py_in "youtube.com" h = Ok false) out.
Proof.
  induction items as [|result rest IH]; simpl; intros out H.
  - inversion H. constructor.
  - destruct (subscript result "link") as [link|] eqn:El; [|discriminate].
    destruct (py_in "youtube.com" link) as [[|]|] eqn:Ey; [auto| |discriminate].
    destruct (subscript result "title"); [|discriminate].
    destruct (subscript result "snippet"); [|discriminate].
    destruct (normalize rest) eqn:En; [|discriminate].
    inversion H; subst. constructor; auto.
    exists link. split; [reflexivity|assumption].
Qed.

Lemma normalize_keeps_the_rest : forall items out,
  normalize items = Ok out ->
  exists links, links_of items = Ok links
    /\ map href_of out = map Some (filter (fun l => negb (mentions_youtube l)) links).
Proof.
  unfold links_of, field_of.
  induction items as [|result rest IH]; simpl; intros out H.
  - inversion H. exists []. auto.
  - destruct (subscript result "link") as [link|] eqn:El; [|discriminate].
    destruct (py_in "youtube.com" link) as [[|]|] eqn:Ey; [| |discriminate].
    + destruct (IH _ H) as (links & -> & Hm). exists (link :: links).
      split; [reflexivity|]. simpl. unfold mentions_youtube at 1. now rewrite Ey.
    + destruct (subscript result "title"); [|discriminate].
      destruct (subscript result "snippet"); [|discriminate].
      destruct (normalize rest) eqn:En; [|discriminate].
      inversion H; subst.
      destruct (IH _ eq_refl) as (links & -> & Hm). exists (link :: links).
      split; [reflexivity|]. simpl. unfold mentions_youtube at 1. rewrite Ey. simpl.
      now rewrite Hm.
Qed.

(** *** What a call that returns an array has done *)

Lemma web_search_dumps_inv : forall w q n tr o out tr',
  q <> EmptyString ->
  web_search w q n tr = (Ok (Dumps o out), tr') ->
  exists items, vendor_items w q n items /\ emitted (search_api w) n items out.
Proof.
  intros w q n tr o out tr' Hq H.
  unfold web_search, vendor_items, emitted in *.
  destruct (String.eqb_spec q EmptyString) as [|_]; [contradiction|].
  unfold serp_web_search, google_web_search, loads_or_none in H. unfold_m.
  repeat match type of H with
         | context [String.eqb (search_api w) ?p] => destruct (String.eqb (search_api w) p)
         end;
    repeat (first [ match type of H with
                    | context [environ w ?k] => destruct (environ w k) eqn:?
                    | context [json_loads w ?t] => destruct (json_loads w t) eqn:?
                    end
                  | split_match H ];
            simpl in *; try discriminate);
    inversion H; subst; clear H;
    repeat match goal with
           | E : (_, _) = (_, _) |- _ => inversion E; subst; clear E
           | E : Ok _ = Ok _ |- _ => inversion E; subst; clear E
           end;
    solve [eauto 12 | eexists; split; [do 5 eexists; eauto 10 | eauto]].
Qed.

Lemma web_search_returns : forall w q n tr items out,
  q <> EmptyString ->
  vendor_items w q n items ->
  emitted (search_api w) n items out ->
  exists tr', web_search w q n tr = (Ok (Dumps dumps_pretty out), tr').
Proof.
  intros w q n tr items out Hq Hv He.
  unfold web_search, vendor_items, emitted in *.
  destruct (String.eqb_spec q EmptyString) as [|_]; [contradiction|].
  unfold serp_web_search, google_web_search, loads_or_none. unfold_m.
  repeat match goal with
         | |- context [String.eqb (search_api w) ?p] => destruct (String.eqb (search_api w) p)
         end;
    repeat match goal with
           | H : exists _, _ |- _ => destruct H
           | H : _ /\ _ |- _ => destruct H
           end;
    subst;
    repeat match goal with
           | E : subscript ?a _ = Ok _ |- _ =>
               is_var a; destruct a; try (unfold subscript in E; discriminate)
           | E : get_default ?a "items" _ = Ok _ |- _ =>
               is_var a; destruct a; try (unfold get_default in E; discriminate)
           end;
    repeat match goal with
           | E : _ = Some _ |- _ => rewrite E
           | E : _ = Ok _ |- _ => rewrite E
           end;
    simpl; eauto.
Qed.

(** *** Failures the two HTTP branches do absorb *)

(** A body that does not parse ends the Serper branch with a bare
    [return], after the one request. *)
Lemma serp_parse_failure : forall w key q n tr resp e,
  requests_post w "https://google.serper.dev/search"
    [("X-API-KEY", key); ("Content-Type", "application/json")]
    (JObj [("q", JStr q); ("num", JInt n)]) = Ok (Some resp) ->
  json_loads w (text resp) = Raise e ->
  exists tr', serp_web_search w key q n tr = (Ok RetNone, tr').
Proof.
  intros * Hr Hl. unfold serp_web_search, loads_or_none. unfold_m.
  rewrite Hr, Hl. eauto.
Qed.

Lemma google_parse_failure : forall w key cx q n tr resp e,
  requests_get w (google_url key cx q) = Ok (Some resp) ->
  json_loads w (text resp) = Raise e ->
  exists tr', google_web_search w key cx q n tr = (Ok RetNone, tr').
Proof.
  intros * Hr Hl. unfold google_web_search, loads_or_none. unfold_m.
  rewrite Hr, Hl. eauto.
Qed.

(** A Google answer without ["items"] is an empty array. *)
Lemma google_missing_items : forall w key cx q n tr resp fields,
  requests_get w (google_url key cx q) = Ok (Some resp) ->
  json_loads w (text resp) = Ok (JObj fields) ->
  lookup "items" fields = None ->
  exists tr', google_web_search w key cx q n tr = (Ok (Dumps dumps_pretty []), tr').
Proof.
  intros * Hr Hl Hi. unfold google_web_search, loads_or_none. unfold_m.
  rewrite Hr, Hl. unfold get_default. rewrite Hi. simpl.
  unfold slice_to. destruct (0 <=? n)%Z; rewrite firstn_nil; eauto.
Qed.

(** No branch asks its vendor twice. *)
Lemma at_most_one_request : forall w q n,
  (length (network_calls (snd (run (web_search w q n)))) <= 1)%nat.
Proof.
  intros w q n. unfold web_search, serp_web_search, google_web_search, loads_or_none.
  unfold_m. simpl.
  repeat match goal with
         | |- context [if ?b then _ else _] => destruct b
         | |- context [environ w ?k] => destruct (environ w k)
         | |- context [json_loads w ?t] => destruct (json_loads w t)
         | |- context [match ?x with _ => _ end] => destruct x
         end; simpl; lia.
Qed.

(** *** The count of the emitted results *)

Lemma emitted_count_loop : forall api n items out,
  skips_youtube api = false ->
  emitted api n items out ->
  length out = Nat.min (Z.to_nat (Z.max 1 n)) (length items).
Proof.
  unfold skips_youtube, emitted. intros api n items out Hs He.
  destruct (String.eqb api "tavily").
  - destruct He as (renamed & Hm & ->).
    rewrite take_loop_prefix, length_firstn. now rewrite (map_res_length _ _ _ _ _ Hm).
  - destruct (String.eqb api "googleSerp"); [discriminate|].
    destruct (String.eqb api "googleAPI"); [discriminate|].
    destruct (String.eqb api "searx").
    + destruct He as (renamed & Hm & ->).
      rewrite take_loop_prefix, length_firstn. now rewrite (map_res_length _ _ _ _ _ Hm).
    + subst. now rewrite take_loop_prefix, length_firstn.
Qed.

Lemma map_res_Ok : forall (items : list json), map_res (fun item => Ok item) items = Ok items.
Proof.
  induction items as [|x rest IH]; simpl; [reflexivity|now rewrite IH].
Qed.

(** Without the skip rule every raw result is emitted, up to the count. *)
Lemma emitted_without_filter : forall api n items out,
  skips_youtube api = false ->
  emitted api n items out ->
  exists renamed,
    map_res (rename api) items = Ok renamed
    /\ out = firstn (Z.to_nat (Z.max 1 n)) renamed.
Proof.
  unfold skips_youtube, emitted, rename. intros api n items out Hs He.
  apply orb_false_elim in Hs. destruct Hs as [Hserp Hgoogle].
  rewrite Hserp, Hgoogle in He.
  destruct (String.eqb api "tavily").
  - destruct He as (renamed & Hm & ->). exists renamed.
    split; [assumption|apply take_loop_prefix].
  - destruct (String.eqb api "searx").
    + destruct He as (renamed & Hm & ->). exists renamed.
      split; [assumption|apply take_loop_prefix].
    + subst. exists items. split; [apply map_res_Ok|apply take_loop_prefix].
Qed.

Lemma emitted_skips_youtube : forall api n items out,
  skips_youtube api = true ->
  emitted api n items out ->
  Forall (fun entry => exists h, href_of entry = Some h /\ py_in "youtube.com" h = Ok false) out
  /\ exists links k,
       links_of items = Ok links
       /\ map href_of out
          = firstn k (map Some (filter (fun l => negb (mentions_youtube l)) links)).
Proof.
  unfold skips_youtube, emitted. intros api n items out Hs He.
  destruct (String.eqb_spec api "tavily") as [->|_]; [now vm_compute in Hs|].
  destruct (String.eqb api "googleSerp").
  - split; [now apply normalize_skips_youtube with items|].
    destruct (normalize_keeps_the_rest _ _ He) as (links & Hl & Hm).
    exists links, (length out). split; [assumption|].
    rewrite <- Hm, <- (length_map href_of). now rewrite firstn_all.
  - destruct (String.eqb api "googleAPI"); [|discriminate].
    destruct He as (kept & Hk & ->).
    destruct (slice_to_prefix kept n) as (k & ->).
    split.
    + apply Forall_forall. intros entry Hin.
      pose proof (normalize_skips_youtube _ _ Hk) as Hall.
      rewrite Forall_forall in Hall. apply Hall.
      rewrite <- (firstn_skipn k kept). apply in_or_app. now left.
    + destruct (normalize_keeps_the_rest _ _ Hk) as (links & Hl & Hm).
      exists links, k. split; [assumption|]. now rewrite <- Hm, firstn_map.
Qed.

Lemma In_firstn : forall A (x : A) k l, In x (firstn k l) -> In x l.
Proof.
  intros A x k l H. rewrite <- (firstn_skipn k l). apply in_or_app. now left.
Qed.

Lemma emitted_href : forall api n items out,
  String.eqb api "duckduckgo" = false ->
  supported_provider api = true ->
  emitted api n items out ->
  exists hrefs, field_of (href_source api) items = Ok hrefs
    /\ Forall (fun entry => exists h, href_of entry = Some h /\ In h hrefs) out.
Proof.
  unfold supported_provider, emitted, href_source. intros api n items out Hd Hs He.
  assert (Hmem : forall (hrefs out0 : list json) k,
             map href_of out0 = map Some hrefs ->
             Forall (fun entry => exists h, href_of entry = Some h /\ In h hrefs)
                    (firstn k out0)).
  { intros hrefs out0 k Hm. apply Forall_forall. intros entry Hin.
    apply In_firstn in Hin.
    apply (in_map href_of) in Hin. rewrite Hm in Hin.
    apply in_map_iff in Hin. destruct Hin as (h & Hh & Hin). eauto. }
  assert (Hsub : forall (links kept : list json),
             map href_of kept
             = map Some (filter (fun l => negb (mentions_youtube l)) links) ->
             forall k, Forall (fun entry => exists h, href_of entry = Some h /\ In h links)
                              (firstn k kept)).
  { intros links kept Hm k. apply Forall_forall. intros entry Hin.
    apply In_firstn in Hin.
    apply (in_map href_of) in Hin. rewrite Hm in Hin.
    apply in_map_iff in Hin. destruct Hin as (h & Hh & Hin).
    apply filter_In in Hin. destruct Hin. eauto. }
  destruct (String.eqb api "tavily").
  - destruct He as (renamed & Hm & ->).
    destruct (map_href_body _ _ _ _ Hm) as (hrefs & Hf & Hh).
    exists hrefs. split; [assumption|]. rewrite take_loop_prefix. now apply Hmem.
  - destruct (String.eqb api "googleSerp").
    + destruct (normalize_keeps_the_rest _ _ He) as (links & Hl & Hm).
      exists links. split; [assumption|].
      rewrite <- (firstn_all out). now apply Hsub.
    + destruct (String.eqb api "googleAPI").
      * destruct He as (kept & Hk & ->).
        destruct (normalize_keeps_the_rest _ _ Hk) as (links & Hl & Hm).
        exists links. split; [assumption|].
        destruct (slice_to_prefix kept n) as (k & ->). now apply Hsub.
      * destruct (String.eqb api "searx").
        -- destruct He as (renamed & Hm & ->).
           destruct (map_href_body _ _ _ _ Hm) as (hrefs & Hf & Hh).
           exists hrefs. split; [assumption|]. rewrite take_loop_prefix. now apply Hmem.
        -- rewrite Hd in Hs. discriminate.
Qed.

(** *** The claims about the search client *)

(** C10. For every provider configuration and every requested count, an
    empty query returns the empty JSON array, [json.dumps([])]; the only
    event of the call is the printed line, so no vendor is contacted. *)
Theorem empty_query_short_circuit : forall w n tr,
  web_search w EmptyString n tr
  = (Ok (Dumps dumps_default []), (tr ++ [Printed (searching_line EmptyString)])%list)
  /\ network_calls (snd (run (web_search w EmptyString n))) = [].
Proof.
  intros w n tr. split; reflexivity.
Qed.

(** C9. Whenever the search client returns an array for the raw results
    [items] of the configured vendor: in the Serper and the Google-API
    branch no emitted result has a link that contains "youtube.com", and the
    emitted links are, in order, a prefix of the vendor's links that do not
    contain it; in every other branch nothing is filtered, the emitted
    results are the first [max 1 n] of all the vendor's results, renamed
    (Tavily, searx) or as they are. *)
Theorem youtube_rule : forall w q n tr o out tr',
  q <> EmptyString ->
  web_search w q n tr = (Ok (Dumps o out), tr') ->
  exists items,
    vendor_items w q n items
    /\ if skips_youtube (search_api w) then
         Forall (fun entry => exists h, href_of entry = Some h
                                        /\ py_in "youtube.com" h = Ok false) out
         /\ exists links k,
              links_of items = Ok links
              /\ map href_of out
                 = firstn k (map Some (filter (fun l => negb (mentions_youtube l)) links))
       else
         exists renamed,
           map_res (rename (search_api w)) items = Ok renamed
           /\ out = firstn (Z.to_nat (Z.max 1 n)) renamed.
Proof.
  intros w q n tr o out tr' Hq H.
  destruct (web_search_dumps_inv _ _ _ _ _ _ _ Hq H) as (items & Hv & He).
  exists items. split; [assumption|].
  destruct (skips_youtube (search_api w)) eqn:Hs.
  - exact (emitted_skips_youtube _ _ _ _ Hs He).
  - exact (emitted_without_filter _ _ _ _ Hs He).
Qed.

(** Serper answers three results, one from youtube: the two others are
    emitted. *)
Lemma youtube_rule_witness :
  "q" <> EmptyString
  /\ exists items,
       vendor_items serper_mixed "q" 4 items
       /\ Forall (fun entry => exists h, href_of entry = Some h
                                        /\ py_in "youtube.com" h = Ok false)
                 [renamed_hit "https://a.example"; renamed_hit "https://b.example"]
       /\ exists links k,
            links_of items = Ok links
            /\ [Some (JStr "https://a.example"); Some (JStr "https://b.example")]
               = firstn k (map Some (filter (fun l => negb (mentions_youtube l)) links)).
Proof.
  split; [discriminate|].
  apply (youtube_rule serper_mixed "q" 4 [] dumps_pretty
           [renamed_hit "https://a.example"; renamed_hit "https://b.example"]
           [Printed (searching_line "q");
            CallPost "https://google.serper.dev/search"
              [("X-API-KEY", "secret"); ("Content-Type", "application/json")]
              (JObj [("q", JStr "q"); ("num", JInt 4)]);
            Printed (searching_line "q")]).
  - discriminate.
  - vm_compute. reflexivity.
Defined.

(** A body that does not parse: the Serper branch returns [None]. *)
Example garbled_body_returns_none :
  fst (run (web_search (garbled "googleSerp") "q" 4)) = Ok RetNone
  /\ fst (run (web_search (garbled "googleAPI") "q" 4)) = Ok RetNone.
Proof. split; vm_compute; reflexivity. Qed.

(** In the Tavily branch a youtube result is emitted like any other. *)
Example tavily_keeps_youtube :
  fst (run (web_search tavily_one "q" 4))
  = Ok (Dumps dumps_pretty
          [JObj [("href", JStr "https://www.youtube.com/watch?v=1");
                 ("body", JStr "some content")]]).
Proof. vm_compute. reflexivity. Qed.

(** C7, counterexample. Tavily answers a result whose [url] is empty: it
    is emitted with an empty [href]; and Serper answers two results to a
    request for one: both are emitted. *)
Lemma href_may_be_empty :
  fst (run (web_search tavily_blank "q" 4))
  = Ok (Dumps dumps_pretty [JObj [("href", JStr EmptyString); ("body", JStr "some content")]])
  /\ fst (run (web_search serper_two "q" 1))
     = Ok (Dumps dumps_pretty [renamed_hit "https://a.example"; renamed_hit "https://b.example"]).
Proof. split; vm_compute; reflexivity. Qed.

(** C7, amended. Whenever the search client returns an array for the raw
    results [items] of the configured vendor: in every branch but
    duckduckgo each emitted result has an [href] field and its value is the
    [url] (Tavily) or [link] value of one of the vendor's results, taken
    as it is; the duckduckgo branch emits a prefix of the vendor's items
    unchanged; the count is at most [n] in the Tavily, searx and duckduckgo
    branches when [n >= 1] and in the Google-API branch when [n >= 0]. *)
Theorem emitted_results_follow_the_vendor : forall w q n tr o out tr',
  q <> EmptyString ->
  web_search w q n tr = (Ok (Dumps o out), tr') ->
  exists items,
    vendor_items w q n items
    /\ (search_api w <> "duckduckgo" ->
        exists hrefs,
          field_of (href_source (search_api w)) items = Ok hrefs
          /\ Forall (fun entry => exists h, href_of entry = Some h /\ In h hrefs) out)
    /\ (search_api w = "duckduckgo" -> exists k, out = firstn k items)
    /\ (skips_youtube (search_api w) = false -> (1 <= n)%Z ->
        (Z.of_nat (length out) <= n)%Z)
    /\ (search_api w = "googleAPI" -> (0 <= n)%Z -> (Z.of_nat (length out) <= n)%Z).
Proof.
  intros w q n tr o out tr' Hq H.
  destruct (web_search_dumps_inv _ _ _ _ _ _ _ Hq H) as (items & Hv & He).
  exists items. split; [assumption|]. repeat split.
  - intros Hd. apply String.eqb_neq in Hd.
    destruct (supported_provider (search_api w)) eqn:Hs.
    + exact (emitted_href _ _ _ _ Hd Hs He).
    + unfold supported_provider in Hs. unfold vendor_items in Hv. unfold emitted in He.
      repeat match type of Hs with
             | context [String.eqb (search_api w) ?p] =>
                 destruct (String.eqb (search_api w) p); try discriminate
             end.
      subst. exists []. split; [reflexivity|constructor].
  - intros Hd. unfold emitted in He. rewrite Hd in He. simpl in He.
    subst. rewrite take_loop_prefix. eauto.
  - intros Hs Hn. rewrite (emitted_count_loop _ _ _ _ Hs He). lia.
  - intros Hg Hn. unfold emitted in He. rewrite Hg in He. simpl in He.
    destruct He as (kept & _ & ->). now apply slice_to_bound.
Qed.

(** Tavily answers one result to a request for four. *)
Lemma emitted_results_follow_the_vendor_witness :
  "q" <> EmptyString
  /\ exists items,
       vendor_items tavily_one "q" 4 items
       /\ (search_api tavily_one <> "duckduckgo" ->
           exists hrefs,
             field_of (href_source (search_api tavily_one)) items = Ok hrefs
             /\ Forall (fun entry => exists h, href_of entry = Some h /\ In h hrefs)
                       [JObj [("href", JStr "https://www.youtube.com/watch?v=1");
                              ("body", JStr "some content")]])
       /\ (search_api tavily_one = "duckduckgo" ->
           exists k, [JObj [("href", JStr "https://www.youtube.com/watch?v=1");
                            ("body", JStr "some content")]] = firstn k items)
       /\ (skips_youtube (search_api tavily_one) = false -> (1 <= 4)%Z ->
           (Z.of_nat 1 <= 4)%Z)
       /\ (search_api tavily_one = "googleAPI" -> (0 <= 4)%Z -> (Z.of_nat 1 <= 4)%Z).
Proof.
  split; [discriminate|].
  apply (emitted_results_follow_the_vendor tavily_one "q" 4 [] dumps_pretty
           [JObj [("href", JStr "https://www.youtube.com/watch?v=1");
                  ("body", JStr "some content")]]
           [Printed (searching_line "q"); CallTavily "secret" "q"]).
  - discriminate.
  - vm_compute. reflexivity.
Defined.

(** C3: the code at two inputs on which the count exceeds the limit.
    Serper answers two results to a request for one and both are emitted,
    the Serper branch never truncates; Tavily answers one result to a
    request for none and it is emitted, the loop counts after it appends. *)
Theorem count_exceeds_limit :
  fst (run (web_search serper_two "q" 1))
  = Ok (Dumps dumps_pretty [renamed_hit "https://a.example"; renamed_hit "https://b.example"])
  /\ fst (run (web_search tavily_one "q" 0))
     = Ok (Dumps dumps_pretty [JObj [("href", JStr "https://www.youtube.com/watch?v=1");
                                     ("body", JStr "some content")]]).
Proof. split; vm_compute; reflexivity. Qed.

(** C4: the code at four failures that are raised, not absorbed.  An
    answer without ["organic"] raises [KeyError] in the Serper branch; a
    transport failure of [requests] is raised in both branches; a Google
    item without ["snippet"] raises [KeyError]. *)
Theorem vendor_failures_are_raised :
  fst (run (web_search serper_unauthorized "q" 4)) = Raise (KeyError "organic")
  /\ fst (run (web_search (offline "googleSerp") "q" 4))
     = Raise (Raised "ConnectionError" "connection refused")
  /\ fst (run (web_search (offline "googleAPI") "q" 4))
     = Raise (Raised "ConnectionError" "connection refused")
  /\ fst (run (web_search google_partial "q" 4)) = Raise (KeyError "snippet").
Proof. repeat split; vm_compute; reflexivity. Qed.

End WebSearchFacts.

(* ================================================================== *)
(** ** Properties of the string operations *)

Module PyFacts.
Import Py.

#[local] Arguments ascii_dec : simpl never.

Lemma split_slash_step : forall a s,
  split_go "/" 0 (String a s)
  = if Ascii.eqb a "/"%char then EmptyString :: split_go "/" 0 s
    else cons_head a (split_go "/" 0 s).
Proof.
  intros a s. simpl.
  destruct (ascii_dec "/"%char a) as [<-|Hne].
  - now destruct s.
  - destruct (Ascii.eqb_spec a "/"%char) as [->|_]; [contradiction|reflexivity].
Qed.

Lemma contains_slash_cons : forall a s,
  contains "/" (String a s) = Ascii.eqb a "/"%char || contains "/" s.
Proof.
  intros a s. simpl.
  destruct (ascii_dec "/"%char a) as [<-|Hne].
  - now destruct s.
  - destruct (Ascii.eqb_spec a "/"%char) as [->|_]; [contradiction|reflexivity].
Qed.

(** The pieces of [s.split("/")]: there is at least one; a single piece is
    [s] itself; otherwise the last piece is what follows the last "/". *)
Lemma split_slash_pieces : forall s,
  exists h t,
    split_go "/" 0 s = h :: t
    /\ contains "/" (List.last (h :: t) EmptyString) = false
    /\ (t = [] -> s = h)
    /\ (t <> [] -> exists pre, s = pre ++ "/" ++ List.last (h :: t) EmptyString).
Proof.
  induction s as [|a s IH].
  - exists EmptyString, []. repeat split; try reflexivity. intros H. now elim H.
  - destruct IH as (h & t & Hs & Hc & Hone & Hmore).
    rewrite split_slash_step, Hs.
    destruct (Ascii.eqb_spec a "/"%char) as [->|Hne].
    + exists EmptyString, (h :: t). repeat split.
      * exact Hc.
      * discriminate.
      * intros _. destruct t as [|h' t'].
        -- exists EmptyString. simpl. now rewrite (Hone eq_refl).
        -- destruct Hmore as (pre & Hpre); [discriminate|].
           exists (String "/" pre). simpl in *. now rewrite Hpre.
    + exists (String a h), t. split; [reflexivity|]. repeat split.
      * destruct t as [|h' t']; [|exact Hc].
        cbn [List.last] in *. rewrite contains_slash_cons, Hc.
        now destruct (Ascii.eqb_spec a "/"%char).
      * intros ->. now rewrite (Hone eq_refl).
      * intros Ht. destruct (Hmore Ht) as (pre & Hpre).
        exists (String a pre). destruct t as [|h' t']; [now elim Ht|].
        cbn [List.last] in *. now rewrite Hpre.
Qed.

Lemma prefix_append : forall p y, String.prefix p (p ++ y) = true.
Proof.
  induction p as [|a p IH]; intros y; simpl.
  - now destruct y.
  - destruct (ascii_dec a a) as [_|Hne]; [apply IH|now elim Hne].
Qed.

Lemma contains_prefix : forall p s, String.prefix p s = true -> contains p s = true.
Proof.
  intros p s H. destruct s; cbn [contains]; now rewrite H.
Qed.

(** A string contains each of the pieces it is appended from. *)
Lemma contains_append : forall p x y, contains p (x ++ p ++ y) = true.
Proof.
  intros p x y. induction x as [|a x IH].
  - change (EmptyString ++ p ++ y) with (p ++ y).
    apply contains_prefix, prefix_append.
  - change (String a x ++ p ++ y) with (String a (x ++ p ++ y)).
    cbn [contains]. rewrite IH. apply orb_true_r.
Qed.

Lemma append_empty_r : forall s, s ++ EmptyString = s.
Proof. induction s as [|a s IH]; simpl; [reflexivity|now rewrite IH]. Qed.

Lemma append_assoc : forall x y z : string, (x ++ y) ++ z = x ++ y ++ z.
Proof. induction x as [|a x IH]; intros; simpl; [reflexivity|now rewrite IH]. Qed.

Lemma contains_append_end : forall p x, contains p (x ++ p) = true.
Proof.
  intros p x. rewrite <- (append_empty_r p) at 2. apply contains_append.
Qed.

End PyFacts.

(* ================================================================== *)
(** ** Properties of the page fetcher *)

Module WebScrapeFacts.
Import Py Py.Notations Json WebScrape.

(** Splits on the answers of the collaborators that decide hypothesis [H],
    in the order in which the code consults them. *)
Ltac crack w H :=
  repeat (match type of H with
          | context [options_available ?x] => destruct (options_available x) eqn:?
          | context [String.eqb (selenium_web_browser w) ?p] =>
              destruct (String.eqb (selenium_web_browser w) p) eqn:?
          | context [gecko_install w] => destruct (gecko_install w) eqn:?
          | context [new_driver w ?o ?s] => destruct (new_driver w o s) eqn:?
          | context [driver_get w ?u] => destruct (driver_get w u) eqn:?
          | context [wait_for_body w ?u] => destruct (wait_for_body w u) eqn:?
          | context [endswith ?u ".pdf"] => destruct (endswith u ".pdf") eqn:?
          | context [contains "arxiv" ?u] => destruct (contains "arxiv" u) eqn:?
          | context [last_item ?l] => destruct (last_item l) eqn:?
          | context [pymupdf_load w ?u] => destruct (pymupdf_load w u) eqn:?
          | context [arxiv_documents w ?u] =>
              destruct (arxiv_documents w u) as [[|? ?]|] eqn:?
          | context [outer_html w ?u] => destruct (outer_html w u) eqn:?
          | context [read_overlay w] => destruct (read_overlay w) eqn:?
          | context [run_overlay w ?x] => destruct (run_overlay w x) eqn:?
          | context [summarize_text w ?a ?b ?c] => destruct (summarize_text w a b c) eqn:?
          | context [page_source w ?u] => destruct (page_source w u) eqn:?
          | context [hyperlinks w ?a ?b] => destruct (hyperlinks w a b) eqn:?
          | context [send_json w ?x] => destruct (send_json w x) eqn:?
          | context [driver_quit w] => destruct (driver_quit w) eqn:?
          end; cbn beta iota in H).

Ltac unfold_m :=
  unfold scrape_pdf_with_pymupdf, scrape_pdf_with_arxiv, add_header, summarize,
         scrape_links_with_selenium, close_browser, send, start, call, print,
         try_except, get_trace, bind, emit, lift, ret, raise, run in *.

Lemma last_segment : forall url,
  exists seg, last_item (split "/" url) = Ok seg /\ final_segment url seg.
Proof.
  intros url. unfold split, final_segment.
  destruct (PyFacts.split_slash_pieces url) as (h & t & Hs & Hc & Hone & Hmore).
  rewrite Hs. exists (List.last (h :: t) EmptyString).
  split; [reflexivity|]. split; [assumption|].
  destruct t as [|h' t'].
  - left. now apply Hone.
  - right. apply Hmore. discriminate.
Qed.

(** *** The claims about the page fetcher *)



(** Once the session is open, the page loaded and its body present, the
    content is asked for: exactly one extraction call is made. *)
Lemma classification_reached : forall w url tr,
  supported_browser (selenium_web_browser w) = true ->
  is_ok (gecko_install w) = true ->
  (forall o service, new_driver w o service = Ok tt) ->
  driver_get w url = Ok tt ->
  wait_for_body w url = Ok tt ->
  exists c,
    extraction_calls (snd (scrape_text_with_selenium w url tr))
    = (extraction_calls tr ++ [c])%list.
Proof.
  intros w url tr Hb Hg Hn Hget Hwait.
  destruct (scrape_text_with_selenium w url tr) as [r tr'] eqn:H.
  unfold scrape_text_with_selenium in H. unfold_m.
  destruct (last_segment url) as (seg & Hseg & _). rewrite Hseg in H.
  unfold supported_browser, options_available in *.
  destruct (gecko_install w); [|discriminate].
  repeat match type of H with
         | context [String.eqb (selenium_web_browser w) ?p] =>
             destruct (String.eqb (selenium_web_browser w) p) eqn:?
         end; try discriminate; cbn beta iota in H;
    rewrite ?Hn, ?Hget, ?Hwait in H; cbn beta iota in H;
    rewrite ?Hget, ?Hwait in H; cbn beta iota in H;
    crack w H; inversion H; subst; clear H; cbn [snd];
    unfold extraction_calls; rewrite ?filter_app;
    cbn [filter is_extraction]; rewrite ?app_nil_r; eauto.
Qed.

Example arxiv_identifier :
  extraction_calls (snd (run (scrape_text_with_selenium (calm "firefox") arxiv_url)))
  = [ArxivRetrieve "1706.03762"].
Proof. vm_compute. reflexivity. Qed.

(** A URL that ends with ".pdf" and contains "arxiv" goes to the PDF
    extractor. *)
Example pdf_before_arxiv :
  extraction_calls
    (snd (run (scrape_text_with_selenium (calm "chrome") "https://arxiv.org/pdf/1706.03762.pdf")))
  = [PdfExtract "https://arxiv.org/pdf/1706.03762.pdf"].
Proof. vm_compute. reflexivity. Qed.

(** *** Sessions *)

Lemma still_open_no_release : forall tr,
  released tr = [] -> still_open tr = opened tr.
Proof.
  intros tr H. unfold still_open. rewrite H. simpl.
  induction (opened tr) as [|d l IH]; simpl; [reflexivity|now rewrite IH].
Qed.

(** The synchronous entry point with no URL: the placeholder, no event. *)
Lemma browse_website_no_url : forall w question tr,
  browse_website w EmptyString question tr = (Ok (no_url_message, None), tr).
Proof. reflexivity. Qed.

(** When [browse_website] returns, no session is left open. *)
Lemma browse_website_releases_on_return : forall w url question answer d,
  fst (run (browse_website w url question)) = Ok (answer, d) ->
  still_open (snd (run (browse_website w url question))) = [].
Proof.
  intros w url question answer d H.
  unfold browse_website, scrape_text_with_selenium in *. unfold_m.
  destruct (String.eqb url EmptyString); [reflexivity|].
  crack w H; try discriminate; reflexivity.
Qed.

(** [async_browse] never calls [quit]. *)
Lemma async_browse_never_quits : forall w url question,
  released (snd (run (async_browse w url question))) = [].
Proof.
  intros w url question.
  remember (run (async_browse w url question)) as p eqn:H.
  unfold async_browse, scrape_text_with_selenium in H. unfold_m.
  crack w H; subst p; reflexivity.
Qed.

(** *** Exceptions *)

(** Past its first notification, [async_browse] always returns a string:
    the gathered information after the second notification, or the error
    message for the exception [e] that stopped it, after printing it. *)
Lemma async_browse_catches : forall w url question tr,
  send_json w (browsing_notice url question) = Ok tt ->
  exists answer tr',
    async_browse w url question tr = (Ok answer, tr')
    /\ ((exists summary_text,
           answer = gathered_message url summary_text
           /\ List.last tr' (Printed EmptyString) = Sent (gathered_notice url summary_text))
        \/ (exists e,
              answer = error_message url e
              /\ List.last tr' (Printed EmptyString) = Printed (error_line url e))).
Proof.
  intros w url question tr Hs.
  destruct (async_browse w url question tr) as [r tr'] eqn:H.
  unfold async_browse, scrape_text_with_selenium in H. unfold_m.
  rewrite Hs in H. cbn beta iota in H.
  crack w H; inversion H; subst; clear H; do 2 eexists; (split; [reflexivity|]);
    rewrite last_last; eauto.
Qed.

(** The error message carries the URL and the text of the exception. *)
Lemma error_message_mentions : forall url e,
  contains url (error_message url e) = true
  /\ contains (str_exn e) (error_message url e) = true.
Proof.
  intros url e. unfold error_message. split.
  - apply PyFacts.contains_append.
  - rewrite <- !PyFacts.append_assoc. apply PyFacts.contains_append_end.
Qed.

(** C1: the code on three fetches that return, or raise, with the session
    they opened still open.  [async_browse] never closes its session, on
    success or on failure; [browse_website] closes it only on its last
    line, which a failing summarizer never reaches. *)
Theorem session_left_open :
  (fst (run (async_browse (calm "chrome") example_url "q"))
   = Ok (gathered_message example_url "a summary")
   /\ still_open (snd (run (async_browse (calm "chrome") example_url "q"))) = [0%nat])
  /\ (fst (run (async_browse (stalled "chrome") example_url "q"))
      = Ok (error_message example_url (Raised "TimeoutException" "Message: "))
      /\ still_open (snd (run (async_browse (stalled "chrome") example_url "q"))) = [0%nat])
  /\ (fst (run (browse_website (tongue_tied "chrome") example_url "q"))
      = Raise (Raised "RuntimeError" "summarizer unavailable")
      /\ still_open (snd (run (browse_website (tongue_tied "chrome") example_url "q")))
         = [0%nat]).
Proof. repeat split; vm_compute; reflexivity. Qed.

(** C2: the code on two fetches through [browse_website] whose exception
    reaches the caller: a navigation that times out and a summarizer that
    fails.  [browse_website] has no handler. *)
Theorem fetch_error_escapes :
  fst (run (browse_website (stalled "chrome") example_url "q"))
  = Raise (Raised "TimeoutException" "Message: ")
  /\ fst (run (browse_website (tongue_tied "chrome") example_url "q"))
     = Raise (Raised "RuntimeError" "summarizer unavailable").
Proof. split; vm_compute; reflexivity. Qed.

(** C5: the code on the empty URL through [async_browse].  There is no
    guard: the browser is started, the driver refuses the empty URL, and
    the answer is the error message of that refusal; the session stays
    open. *)
Theorem empty_url_reaches_the_browser :
  fst (run (async_browse (picky "chrome") EmptyString "q"))
  = Ok (error_message EmptyString
          (Raised "InvalidArgumentException" "Message: invalid argument"))
  /\ existsb starts_browser (snd (run (async_browse (picky "chrome") EmptyString "q")))
     = true
  /\ still_open (snd (run (async_browse (picky "chrome") EmptyString "q"))) = [0%nat].
Proof. repeat split; vm_compute; reflexivity. Qed.

(** Whatever the driver makes of the empty URL, [async_browse] has called
    a driver constructor by then, for Chrome and for Safari. *)
Lemma async_browse_no_url_starts : forall w question,
  selenium_web_browser w = "chrome" \/ selenium_web_browser w = "safari" ->
  send_json w (browsing_notice EmptyString question) = Ok tt ->
  existsb starts_browser (snd (run (async_browse w EmptyString question))) = true.
Proof.
  intros w question Hb Hs.
  remember (run (async_browse w EmptyString question)) as p eqn:H.
  unfold async_browse, scrape_text_with_selenium in H. unfold_m.
  cbn [app] in H. rewrite Hs in H. cbn beta iota in H.
  destruct Hb as [Hb|Hb]; rewrite Hb in H; cbn in H;
    crack w H; subst p; reflexivity.
Qed.

End WebScrapeFacts.

(* ================================================================== *)
(** ** Unsupported configuration values *)

Module Configuration.
Import Py Py.Notations Json.




(** A browser name with an apostrophe comes back between double quotes. *)
Example unsupported_browser_with_apostrophe :
  fst (run (WebScrape.async_browse (WebScrape.calm "o'pera") WebScrape.example_url "q"))
  = Ok ("Error processing the url https://example.com: "
        ++ String "034"%char ("o'pera" ++ String "034"%char EmptyString)).
Proof. vm_compute. reflexivity. Qed.

End Configuration.

(* ================================================================== *)
(** ** More about the search client *)

Module WebSearchMore.
Import Py Py.Notations Json WebSearch.

Ltac unfold_m :=
  unfold finish, getenv, call, print, bind, emit, lift, ret, raise, run in *.

#[local] Arguments subscript : simpl never.
#[local] Arguments get_default : simpl never.

(** X1. A search contacts at most one vendor, at most once, and that
    vendor is the configured one: the network calls of [web_search] are
    none, or a single call.  That call goes to provider [CFG.search_api]
    (a request over HTTP is sent to the endpoint of that provider), it
    presents the credentials the environment holds for that provider, and
    it asks for the query given. *)
Theorem one_call_to_the_configured_provider : forall w q n,
  network_calls (snd (run (web_search w q n))) = []
  \/ exists c,
       network_calls (snd (run (web_search w q n))) = [c]
       /\ provider_of c = search_api w
       /\ presents (environ w) c
       /\ asks q n c.
Proof.
  intros w q n. unfold web_search, serp_web_search, google_web_search, loads_or_none.
  unfold_m. simpl.
  destruct (String.eqb q EmptyString); [now left|].
  destruct (String.eqb_spec (search_api w) "tavily") as [->|_].
  { destruct (environ w "TAVILY_API_KEY") as [key|] eqn:Ek; [|now left].
    repeat match goal with
           | |- context [match ?x with _ => _ end] => destruct x
           end; simpl; right; eexists; repeat split; eauto. }
  destruct (String.eqb_spec (search_api w) "googleSerp") as [->|_].
  { destruct (environ w "SERP_API_KEY") as [key|] eqn:Ek; [|now left].
    repeat match goal with
           | |- context [json_loads w ?t] => destruct (json_loads w t)
           | |- context [match ?x with _ => _ end] => destruct x
           end; simpl; right; eexists;
      (split; [reflexivity|]); (split; [reflexivity|]); split; cbn; eauto 6. }
  destruct (String.eqb_spec (search_api w) "googleAPI") as [->|_].
  { destruct (environ w "GOOGLE_API_KEY") as [key|] eqn:Ek; [|now left].
    destruct (environ w "GOOGLE_CX") as [cx|] eqn:Ec; [|now left].
    repeat match goal with
           | |- context [json_loads w ?t] => destruct (json_loads w t)
           | |- context [match ?x with _ => _ end] => destruct x
           end; simpl; right; eexists;
      (split; [reflexivity|]); (split; [reflexivity|]); split; cbn; eauto 6. }
  destruct (String.eqb_spec (search_api w) "searx") as [->|_].
  { destruct (environ w "SEARX_URL") as [host|] eqn:Eh; [|now left].
    repeat match goal with
           | |- context [match ?x with _ => _ end] => destruct x
           end; simpl; right; eexists; repeat split; eauto. }
  destruct (String.eqb_spec (search_api w) "duckduckgo") as [->|_].
  { repeat match goal with
           | |- context [match ?x with _ => _ end] => destruct x
           end; simpl; right; eexists; repeat split; eauto. }
  now left.
Qed.

(** Each provider in turn: the call that goes out names it. *)
Example serper_request :
  network_calls (snd (run (web_search (vendor "googleSerp" JNull) "rocq" 4)))
  = [CallPost "https://google.serper.dev/search"
              [("X-API-KEY", "secret"); ("Content-Type", "application/json")]
              (JObj [("q", JStr "rocq"); ("num", JInt 4)])].
Proof. vm_compute. reflexivity. Qed.

Example google_request :
  network_calls (snd (run (web_search (vendor "googleAPI" JNull) "rocq" 4)))
  = [CallGet "https://www.googleapis.com/customsearch/v1?key=secret&cx=secret&q=rocq&start=1"].
Proof. vm_compute. reflexivity. Qed.

(** A request to another endpoint is a call to none of the providers. *)
Example other_endpoint :
  provider_of (CallGet "https://example.com/customsearch/v1?q=rocq") = EmptyString
  /\ provider_of (CallPost "https://example.com/search" [] JNull) = EmptyString.
Proof. split; reflexivity. Qed.

(** X2. When a variable of the environment that the configured branch
    reads is not set, [web_search] on a query raises [KeyError] on the
    first such variable, and it does so before any request is sent: the
    only event is the printed line. *)
Theorem missing_key_raises : forall w q n name,
  q <> EmptyString ->
  find (fun v => match environ w v with None => true | Some _ => false end)
       (key_variables (search_api w)) = Some name ->
  run (web_search w q n) = (Raise (KeyError name), [Printed (searching_line q)]).
Proof.
  intros w q n name Hq Hf. unfold web_search, key_variables in *.
  destruct (String.eqb_spec q EmptyString) as [|_]; [contradiction|].
  unfold serp_web_search, google_web_search. unfold_m.
  repeat match type of Hf with
         | context [String.eqb (search_api w) ?p] => destruct (String.eqb (search_api w) p)
         end; simpl in Hf;
    repeat match type of Hf with
           | context [environ w ?k] => destruct (environ w k)
           end; simpl in *; try discriminate; now inversion Hf.
Qed.

(** The Google branch with [GOOGLE_API_KEY] set and [GOOGLE_CX] not. *)
Lemma missing_key_raises_witness :
  run (web_search
         {| search_api := "googleAPI";
            environ := fun v => if String.eqb v "GOOGLE_API_KEY" then Some "secret" else None;
            tavily_search := fun _ _ => Ok JNull;
            requests_post := fun _ _ _ => Ok None;
            requests_get := fun _ => Ok None;
            json_loads := fun _ => Ok JNull;
            searx_results := fun _ _ _ => Ok JNull;
            ddgs_text := fun _ => Ok JNull |} "q" 4)
  = (Raise (KeyError "GOOGLE_CX"), [Printed (searching_line "q")]).
Proof.
  apply missing_key_raises.
  - discriminate.
  - reflexivity.
Defined.

(** *** The shape of the results *)

Lemma normalize_keys : forall items out,
  normalize items = Ok out -> Forall (has_keys ["title"; "href"; "body"]) out.
Proof.
  induction items as [|result rest IH]; simpl; intros out H.
  - inversion H. constructor.
  - destruct (subscript result "link") as [link|]; [|discriminate].
    destruct (py_in "youtube.com" link) as [[|]|]; [auto| |discriminate].
    destruct (subscript result "title"); [|discriminate].
    destruct (subscript result "snippet"); [|discriminate].
    destruct (normalize rest); [|discriminate].
    inversion H; subst. constructor; [|auto].
    eexists. split; reflexivity.
Qed.

Lemma href_body_keys : forall hk bk items out,
  map_res (href_body hk bk) items = Ok out -> Forall (has_keys ["href"; "body"]) out.
Proof.
  induction items as [|obj rest IH]; simpl; intros out H.
  - inversion H. constructor.
  - unfold href_body at 1 in H.
    destruct (subscript obj hk); [|discriminate].
    destruct (subscript obj bk); [|discriminate].
    destruct (map_res (href_body hk bk) rest); [|discriminate].
    inversion H; subst. constructor; [|auto].
    eexists. split; reflexivity.
Qed.

Lemma Forall_firstn : forall A (P : A -> Prop) k l, Forall P l -> Forall P (firstn k l).
Proof.
  intros A P k l H. rewrite Forall_forall in *. intros x Hx.
  apply H. rewrite <- (firstn_skipn k l). apply in_or_app. now left.
Qed.

(** X3. Every result of an array that [web_search] returns, in every
    branch but duckduckgo, is a dict with exactly the keys [title], [href],
    [body] (Serper, Google) or [href], [body] (Tavily, searx), in this
    order: the Tavily and the searx branch emit no title. *)
Theorem result_shape : forall w q n tr o out tr',
  web_search w q n tr = (Ok (Dumps o out), tr') ->
  search_api w <> "duckduckgo" ->
  Forall (has_keys (result_keys (search_api w))) out.
Proof.
  intros w q n tr o out tr' H Hd.
  destruct (String.eqb_spec q EmptyString) as [->|Hq].
  - unfold web_search in H. unfold_m. simpl in H. inversion H. constructor.
  - destruct (WebSearchFacts.web_search_dumps_inv _ _ _ _ _ _ _ Hq H) as (items & Hv & He).
    apply String.eqb_neq in Hd.
    unfold emitted in He. unfold vendor_items in Hv. unfold result_keys, skips_youtube.
    destruct (String.eqb (search_api w) "tavily") eqn:Et.
    { destruct (String.eqb_spec (search_api w) "googleSerp") as [E|_];
        [rewrite E in Et; discriminate|].
      destruct (String.eqb_spec (search_api w) "googleAPI") as [E|_];
        [rewrite E in Et; discriminate|].
      destruct He as (renamed & Hm & ->). rewrite WebSearchFacts.take_loop_prefix.
      apply Forall_firstn. exact (href_body_keys _ _ _ _ Hm). }
    destruct (String.eqb (search_api w) "googleSerp").
    { exact (normalize_keys _ _ He). }
    destruct (String.eqb (search_api w) "googleAPI").
    { destruct He as (kept & Hk & ->).
      destruct (WebSearchFacts.slice_to_prefix kept n) as (k & ->).
      apply Forall_firstn. exact (normalize_keys _ _ Hk). }
    destruct (String.eqb (search_api w) "searx").
    { destruct He as (renamed & Hm & ->). rewrite WebSearchFacts.take_loop_prefix.
      apply Forall_firstn. exact (href_body_keys _ _ _ _ Hm). }
    rewrite Hd in Hv. subst. constructor.
Qed.

(** Tavily answers one result. *)
Lemma result_shape_witness :
  Forall (has_keys ["href"; "body"])
         [JObj [("href", JStr "https://www.youtube.com/watch?v=1");
                ("body", JStr "some content")]].
Proof.
  apply (result_shape tavily_one "q" 4 [] dumps_pretty
           [JObj [("href", JStr "https://www.youtube.com/watch?v=1");
                  ("body", JStr "some content")]]
           [Printed (searching_line "q"); CallTavily "secret" "q"]).
  - vm_compute. reflexivity.
  - discriminate.
Defined.

(** *** The normalizing loop *)

(** X4. The skip rule looks at the link only: dropping the youtube results
    from the vendor's answer beforehand changes nothing, so a youtube
    result that lacks a title or a snippet is skipped without an error. *)
Theorem normalize_ignores_youtube_results : forall items,
  normalize items = normalize (filter (fun r => negb (is_youtube_result r)) items).
Proof.
  induction items as [|result rest IH]; [reflexivity|].
  cbn [filter]. unfold is_youtube_result at 1, mentions_youtube.
  cbn [normalize].
  destruct (subscript result "link") as [link|e] eqn:El.
  - destruct (py_in "youtube.com" link) as [[|]|e] eqn:Ey; cbn [negb].
    + exact IH.
    + cbn [normalize]. rewrite El, Ey, IH. reflexivity.
    + cbn [normalize]. rewrite El, Ey. reflexivity.
  - cbn [negb normalize]. rewrite El. reflexivity.
Qed.

(** X5. The results are normalized one after the other: normalizing two
    lists put end to end gives the normalized first list followed by the
    normalized second one, and the failure raised is the first one met in
    that order; in particular one malformed result fails the whole list,
    whatever came before it. *)
Theorem normalize_app : forall front back,
  normalize (front ++ back)
  = match normalize front with
    | Raise e => Raise e
    | Ok kept =>
        match normalize back with
        | Raise e => Raise e
        | Ok more => Ok (kept ++ more)%list
        end
    end.
Proof.
  induction front as [|result rest IH]; intros back.
  - simpl. now destruct (normalize back).
  - cbn [app normalize]. rewrite IH.
    destruct (subscript result "link") as [link|]; [|reflexivity].
    destruct (py_in "youtube.com" link) as [[|]|]; [reflexivity| |reflexivity].
    destruct (subscript result "title"); [|reflexivity].
    destruct (subscript result "snippet"); [|reflexivity].
    destruct (normalize rest); [|reflexivity].
    now destruct (normalize back).
Qed.

(** *** Answers with nothing to normalize *)

(** X6. The Serper and the Google branch return [None], not a JSON text,
    exactly when [requests] gave no response object, or the body of the
    response does not parse, or it parses to [null]. *)
Theorem http_branches_return_none : forall w key cx q n,
  (fst (run (serp_web_search w key q n)) = Ok RetNone
   <-> unusable w (requests_post w "https://google.serper.dev/search"
                     [("X-API-KEY", key); ("Content-Type", "application/json")]
                     (JObj [("q", JStr q); ("num", JInt n)])))
  /\ (fst (run (google_web_search w key cx q n)) = Ok RetNone
      <-> unusable w (requests_get w (google_url key cx q))).
Proof.
  intros w key cx q n.
  unfold serp_web_search, google_web_search, loads_or_none, unusable. unfold_m.
  split; split.
  - intros H. cbn [app] in H.
    destruct (requests_post _ _ _ _) as [[resp|]|]; cbn in H; [|now left|discriminate].
    right. exists resp. split; [reflexivity|].
    destruct (json_loads w (text resp)) as [v|]; [|now left].
    right. destruct v; cbn in H; [reflexivity| | | | | |];
      repeat (match type of H with
              | context [match ?x with _ => _ end] => destruct x
              end; cbn in H; try discriminate).
  - intros [H|(resp & H & [Hl|Hl])]; cbn [app]; rewrite H; cbn; [reflexivity| |].
    + now destruct (json_loads w (text resp)).
    + now rewrite Hl.
  - intros H. cbn [app] in H.
    destruct (requests_get _ _) as [[resp|]|]; cbn in H; [|now left|discriminate].
    right. exists resp. split; [reflexivity|].
    destruct (json_loads w (text resp)) as [v|]; [|now left].
    right. destruct v; cbn in H; [reflexivity| | | | | |];
      repeat (match type of H with
              | context [match ?x with _ => _ end] => destruct x
              end; cbn in H; try discriminate).
  - intros [H|(resp & H & [Hl|Hl])]; cbn [app]; rewrite H; cbn; [reflexivity| |].
    + now destruct (json_loads w (text resp)).
    + now rewrite Hl.
Qed.

(** X7. In the Google branch an answer that is a JSON object without the
    key ["items"] is an empty result: [web_search] returns the empty array,
    whatever the count, after its one request. *)
Theorem google_answer_without_items : forall w q n key cx resp fields,
  search_api w = "googleAPI" ->
  q <> EmptyString ->
  environ w "GOOGLE_API_KEY" = Some key ->
  environ w "GOOGLE_CX" = Some cx ->
  requests_get w (google_url key cx q) = Ok (Some resp) ->
  json_loads w (text resp) = Ok (JObj fields) ->
  lookup "items" fields = None ->
  run (web_search w q n)
  = (Ok (Dumps dumps_pretty []),
     [Printed (searching_line q); CallGet (google_url key cx q);
      Printed (searching_line q)]).
Proof.
  intros w q n key cx resp fields Ha Hq Hk Hc Hr Hl Hi.
  unfold web_search. rewrite Ha.
  destruct (String.eqb_spec q EmptyString) as [|_]; [contradiction|].
  cbn [String.eqb Ascii.eqb Bool.eqb].
  unfold google_web_search, loads_or_none. unfold_m.
  rewrite Hk, Hc. cbn [app]. rewrite Hr. cbn beta iota. rewrite Hl.
  unfold get_default. rewrite Hi. cbn.
  unfold slice_to. now destruct (0 <=? n)%Z; rewrite firstn_nil.
Qed.

(** Google answers an error document. *)
Lemma google_answer_without_items_witness :
  run (web_search google_quota "q" 4)
  = (Ok (Dumps dumps_pretty []),
     [Printed (searching_line "q");
      CallGet (google_url "secret" "secret" "q");
      Printed (searching_line "q")]).
Proof.
  apply (google_answer_without_items google_quota "q" 4 "secret" "secret"
           {| text := "body" |} [("error", JObj [("code", JInt 429)])]);
    try reflexivity.
  discriminate.
Defined.

End WebSearchMore.

(* ================================================================== *)
(** ** More about the string operations *)

Module PyMore.
Import Py.

#[local] Arguments ascii_dec : simpl never.

Lemma append_inj_l : forall x s t : string, x ++ s = x ++ t -> s = t.
Proof.
  induction x as [|a x IH]; simpl; intros s t H; [assumption|].
  inversion H. auto.
Qed.

Lemma prefix_split : forall p s,
  String.prefix p s = true -> exists rest, s = p ++ rest.
Proof.
  induction p as [|a p IH]; intros s H.
  - exists s. reflexivity.
  - destruct s as [|b s]; simpl in H; [discriminate|].
    destruct (ascii_dec a b) as [<-|]; [|discriminate].
    destruct (IH _ H) as (rest & ->). now exists rest.
Qed.

(** [pat in s] holds exactly when [s] is some text, then [pat], then some
    text. *)
Lemma contains_iff : forall pat s,
  contains pat s = true <-> exists x y, s = x ++ pat ++ y.
Proof.
  intros pat s. split.
  - induction s as [|a s IH]; cbn [contains]; intros H.
    + rewrite orb_false_r in H. destruct (prefix_split _ _ H) as (rest & E).
      exists EmptyString, rest. exact E.
    + apply orb_true_iff in H. destruct H as [H|H].
      * destruct (prefix_split _ _ H) as (rest & E).
        exists EmptyString, rest. exact E.
      * destruct (IH H) as (x & y & ->). now exists (String a x), y.
  - intros (x & y & ->). apply PyFacts.contains_append.
Qed.

(** [s.endswith(suf)] holds exactly when [s] is some text followed by
    [suf]. *)
Lemma endswith_iff : forall s suf,
  endswith s suf = true <-> exists pre, s = pre ++ suf.
Proof.
  intros s suf. split.
  - induction s as [|a s IH]; cbn [endswith]; intros H.
    + rewrite orb_false_r in H. apply String.eqb_eq in H. subst.
      now exists EmptyString.
    + apply orb_true_iff in H. destruct H as [H|H].
      * apply String.eqb_eq in H. exists EmptyString. exact H.
      * destruct (IH H) as (pre & ->). now exists (String a pre).
  - intros (pre & ->). induction pre as [|a pre IH].
    + simpl. destruct suf; cbn [endswith]; now rewrite String.eqb_refl.
    + change (String a pre ++ suf) with (String a (pre ++ suf)).
      cbn [endswith]. rewrite IH. apply orb_true_r.
Qed.

End PyMore.

(* ================================================================== *)
(** ** More about the page fetcher *)

Module WebScrapeMore.
Import Py Py.Notations Json WebScrape.

(** Splits on the answers of the collaborators that decide hypothesis [H],
    in the order in which the code consults them. *)
Ltac crack w H :=
  repeat (match type of H with
          | context [options_available ?x] => destruct (options_available x) eqn:?
          | context [String.eqb (selenium_web_browser w) ?p] =>
              destruct (String.eqb (selenium_web_browser w) p) eqn:?
          | context [gecko_install w] => destruct (gecko_install w) eqn:?
          | context [new_driver w ?o ?s] => destruct (new_driver w o s) eqn:?
          | context [driver_get w ?u] => destruct (driver_get w u) eqn:?
          | context [wait_for_body w ?u] => destruct (wait_for_body w u) eqn:?
          | context [endswith ?u ".pdf"] => destruct (endswith u ".pdf") eqn:?
          | context [contains "arxiv" ?u] => destruct (contains "arxiv" u) eqn:?
          | context [last_item ?l] => destruct (last_item l) eqn:?
          | context [pymupdf_load w ?u] => destruct (pymupdf_load w u) eqn:?
          | context [arxiv_documents w ?u] =>
              destruct (arxiv_documents w u) as [[|? ?]|] eqn:?
          | context [outer_html w ?u] => destruct (outer_html w u) eqn:?
          | context [read_overlay w] => destruct (read_overlay w) eqn:?
          | context [run_overlay w ?x] => destruct (run_overlay w x) eqn:?
          | context [summarize_text w ?a ?b ?c] => destruct (summarize_text w a b c) eqn:?
          | context [page_source w ?u] => destruct (page_source w u) eqn:?
          | context [hyperlinks w ?a ?b] => destruct (hyperlinks w a b) eqn:?
          | context [send_json w ?x] => destruct (send_json w x) eqn:?
          | context [driver_quit w] => destruct (driver_quit w) eqn:?
          end; cbn beta iota in H).

Ltac unfold_m :=
  unfold scrape_pdf_with_pymupdf, scrape_pdf_with_arxiv, add_header, summarize,
         scrape_links_with_selenium, close_browser, send, start, call, print,
         try_except, get_trace, bind, emit, lift, ret, raise, run in *.

(** Finds the length of the prefix. *)
Ltac pick_prefix :=
  first [ exists 0%nat; reflexivity | exists 1%nat; reflexivity
        | exists 2%nat; reflexivity | exists 3%nat; reflexivity
        | exists 4%nat; reflexivity | exists 5%nat; reflexivity
        | exists 6%nat; reflexivity | exists 7%nat; reflexivity
        | exists 8%nat; reflexivity | exists 9%nat; reflexivity
        | exists 10%nat; reflexivity ].

(** *** The order of the steps *)

(** X8. In every run of [browse_website] the steps come in one fixed
    order (start the browser, open the session, navigate, wait for the
    body, extract the content, read and inject the overlay, summarize,
    read the links, quit) and the run stops at the first step that fails:
    the steps made are a prefix of that sequence, and all of it when the
    function returns a driver. *)
Theorem browse_website_steps : forall w url question,
  (exists k, steps (snd (run (browse_website w url question))) = firstn k browse_steps)
  /\ (forall answer d,
        fst (run (browse_website w url question)) = Ok (answer, Some d) ->
        steps (snd (run (browse_website w url question))) = browse_steps).
Proof.
  intros w url question.
  destruct (run (browse_website w url question)) as [r tr] eqn:H.
  unfold browse_website, scrape_text_with_selenium in H. unfold_m.
  destruct (String.eqb url EmptyString).
  { inversion H; subst. split; [exists 0%nat; reflexivity|discriminate]. }
  crack w H; inversion H; subst; clear H; cbn [fst snd];
    (split; [pick_prefix|first [discriminate | reflexivity | intros; reflexivity]]).
Qed.

Lemma browse_website_steps_witness :
  steps (snd (run (browse_website (calm "firefox") arxiv_url "q"))) = browse_steps.
Proof.
  apply (proj2 (browse_website_steps (calm "firefox") arxiv_url "q")
           (answer_text (calm "firefox") "a summary" ["a (https://a.example)"]) 0%nat).
  vm_compute. reflexivity.
Defined.

(** X9. In every run of [async_browse] the steps come in the same order
    and stop at the first failure; the complete sequence ends with the
    summarizer: the links are not read and the browser is not quit. *)
Theorem async_browse_steps : forall w url question,
  (exists k, steps (snd (run (async_browse w url question))) = firstn k async_steps)
  /\ (forall summary_text,
        fst (run (async_browse w url question)) = Ok (gathered_message url summary_text) ->
        steps (snd (run (async_browse w url question))) = async_steps).
Proof.
  intros w url question.
  destruct (run (async_browse w url question)) as [r tr] eqn:H.
  unfold async_browse, scrape_text_with_selenium in H. unfold_m.
  crack w H; inversion H; subst; clear H; cbn [fst snd];
    (split; [pick_prefix|]); intros summary_text E;
    first [reflexivity | discriminate | (inversion E; fail)].
Qed.

Lemma async_browse_steps_witness :
  steps (snd (run (async_browse (calm "safari") example_url "q"))) = async_steps.
Proof.
  apply (proj2 (async_browse_steps (calm "safari") example_url "q") "a summary").
  vm_compute. reflexivity.
Defined.

(** *** What [browse_website] hands back *)

Lemma shown_links : forall links : list string,
  (if (5 <? length links)%nat then firstn 5 links else links) = firstn 5 links.
Proof.
  intros links. destruct (Nat.ltb_spec 5 (length links)); [reflexivity|].
  symmetry. apply firstn_all2. assumption.
Qed.

(** X10. [browse_website] returns no driver exactly for the empty URL,
    and then nothing has happened; otherwise the driver it returns is the
    one session the call opened, and the call has already quit it: quitting
    is the last thing the call does. *)
Theorem browse_website_handle : forall w url question answer handle,
  fst (run (browse_website w url question)) = Ok (answer, handle) ->
  match handle with
  | None => url = EmptyString /\ snd (run (browse_website w url question)) = []
  | Some d =>
      url <> EmptyString
      /\ opened (snd (run (browse_website w url question))) = [d]
      /\ released (snd (run (browse_website w url question))) = [d]
      /\ List.last (snd (run (browse_website w url question))) (Printed EmptyString) = Quit d
  end.
Proof.
  intros w url question answer handle H.
  destruct (run (browse_website w url question)) as [r tr] eqn:E.
  cbn [fst snd] in *. subst r.
  unfold browse_website, scrape_text_with_selenium in E. unfold_m.
  destruct (String.eqb_spec url EmptyString) as [->|Hu].
  { inversion E; subst. split; reflexivity. }
  crack w E; inversion E; subst; clear E; (split; [assumption|]); repeat split.
Qed.

Lemma browse_website_handle_witness :
  example_url <> EmptyString
  /\ opened (snd (run (browse_website (calm "chrome") example_url "q"))) = [0%nat]
  /\ released (snd (run (browse_website (calm "chrome") example_url "q"))) = [0%nat]
  /\ List.last (snd (run (browse_website (calm "chrome") example_url "q")))
               (Printed EmptyString) = Quit 0.
Proof.
  apply (browse_website_handle (calm "chrome") example_url "q"
           (answer_text (calm "chrome") "a summary" ["a (https://a.example)"])
           (Some 0%nat)).
  vm_compute. reflexivity.
Defined.

(** X11. The answer of [browse_website] is the fixed frame around the
    summary the summarizer gave for the page and the first five, at most,
    of the links the hyperlink helpers found in the page source. *)
Theorem browse_website_answer : forall w url question answer d,
  fst (run (browse_website w url question)) = Ok (answer, Some d) ->
  exists text summary_text source links,
    summarize_text w url text question = Ok summary_text
    /\ page_source w url = Ok source
    /\ hyperlinks w source url = Ok links
    /\ answer = answer_text w summary_text (firstn 5 links)
    /\ (length (firstn 5 links) <= 5)%nat.
Proof.
  intros w url question answer d H.
  unfold browse_website, scrape_text_with_selenium in H. unfold_m.
  destruct (String.eqb url EmptyString); [discriminate|].
  crack w H; try discriminate; cbn [fst] in H; inversion H; subst; clear H;
    rewrite shown_links; do 4 eexists;
    (split; [eassumption|]); (split; [reflexivity|]); (split; [eassumption|]);
    (split; [reflexivity|apply firstn_le_length]).
Qed.

Lemma browse_website_answer_witness :
  exists text summary_text source links,
    summarize_text (calm "chrome") example_url text "q" = Ok summary_text
    /\ page_source (calm "chrome") example_url = Ok source
    /\ hyperlinks (calm "chrome") source example_url = Ok links
    /\ answer_text (calm "chrome") "a summary" ["a (https://a.example)"]
       = answer_text (calm "chrome") summary_text (firstn 5 links)
    /\ (length (firstn 5 links) <= 5)%nat.
Proof.
  apply (browse_website_answer (calm "chrome") example_url "q"
           (answer_text (calm "chrome") "a summary" ["a (https://a.example)"]) 0%nat).
  vm_compute. reflexivity.
Defined.

(** *** What [async_browse] hands back *)

(** X12. [async_browse] raises only when its first notification cannot be
    sent, and then nothing else has happened.  Otherwise it returns a
    string: the gathered information, or the error message of the
    exception that stopped it, which contains the URL and the text of the
    exception and whose line was printed last. *)
Theorem async_browse_outcome : forall w url question,
  match send_json w (browsing_notice url question) with
  | Raise e =>
      fst (run (async_browse w url question)) = Raise e
      /\ sent (snd (run (async_browse w url question))) = [browsing_notice url question]
      /\ steps (snd (run (async_browse w url question))) = []
  | Ok _ =>
      exists answer,
        fst (run (async_browse w url question)) = Ok answer
        /\ ((exists summary_text, answer = gathered_message url summary_text)
            \/ exists e,
                 answer = error_message url e
                 /\ contains url answer = true
                 /\ contains (str_exn e) answer = true
                 /\ List.last (snd (run (async_browse w url question)))
                              (Printed EmptyString) = Printed (error_line url e))
  end.
Proof.
  intros w url question.
  destruct (send_json w (browsing_notice url question)) as [[]|e] eqn:Hs.
  - destruct (WebScrapeFacts.async_browse_catches w url question [] Hs)
      as (answer & tr' & H & Hcase).
    unfold run. rewrite H. exists answer. split; [reflexivity|].
    destruct Hcase as [(summary_text & -> & _)|(e & -> & Hlast)].
    + left. now exists summary_text.
    + right. exists e.
      destruct (WebScrapeFacts.error_message_mentions url e) as [Hu He].
      repeat split; assumption.
  - unfold async_browse. unfold_m. cbn [app]. rewrite Hs. repeat split.
Qed.

Lemma append_inj_gathered : forall url s t,
  gathered_message url s = gathered_message url t -> s = t.
Proof.
  unfold gathered_message. intros url s t H.
  apply PyMore.append_inj_l in H. apply PyMore.append_inj_l in H.
  now apply PyMore.append_inj_l in H.
Qed.

(** X13. [async_browse] sends one or two notifications: always the
    "browsing" one first, and, only after the summarizer has answered, the
    one that carries the summary; when the gathered information is
    returned both were sent, the second with that very summary. *)
Theorem async_browse_notifications : forall w url question,
  (sent (snd (run (async_browse w url question))) = [browsing_notice url question]
   \/ exists text summary_text,
        summarize_text w url text question = Ok summary_text
        /\ sent (snd (run (async_browse w url question)))
           = [browsing_notice url question; gathered_notice url summary_text])
  /\ (forall summary_text,
        fst (run (async_browse w url question)) = Ok (gathered_message url summary_text) ->
        sent (snd (run (async_browse w url question)))
        = [browsing_notice url question; gathered_notice url summary_text]).
Proof.
  intros w url question.
  destruct (run (async_browse w url question)) as [r tr] eqn:H.
  unfold async_browse, scrape_text_with_selenium in H. unfold_m.
  crack w H; inversion H; subst; clear H; cbn [fst snd]; split;
    try (left; reflexivity); try (right; do 2 eexists; split; [eassumption|reflexivity]);
    intros summary_text E;
    first [ discriminate
          | (inversion E; fail)
          | assert (E' := f_equal (fun r => match r with
                                            | Ok x => x
                                            | Raise _ => EmptyString
                                            end) E);
            cbn beta iota in E'; apply append_inj_gathered in E'; subst; reflexivity ].
Qed.

Lemma async_browse_notifications_witness :
  sent (snd (run (async_browse (calm "chrome") example_url "q")))
  = [browsing_notice example_url "q"; gathered_notice example_url "a summary"].
Proof.
  apply (proj2 (async_browse_notifications (calm "chrome") example_url "q") "a summary").
  vm_compute. reflexivity.
Defined.

(** *** How the browser is started *)

(** X14. Whatever browser is configured, it is started headless, with the
    configured user agent and with JavaScript enabled, these three
    arguments first.  Firefox and Safari get nothing more; Chrome gets, on
    Linux, the two arguments about shared memory and the debugging port,
    then always "--no-sandbox", and the preference that restricts
    downloads. *)
Theorem browser_options : forall w url o,
  In (StartBrowser o) (snd (run (scrape_text_with_selenium w url))) ->
  firstn 3 (arguments o)
  = ["user-agent=" ++ user_agent w; "--headless"; "--enable-javascript"]
  /\ match kind o with
     | Chrome =>
         selenium_web_browser w = "chrome"
         /\ skipn 3 (arguments o)
            = ((if String.eqb (platform w) "linux" || String.eqb (platform w) "linux2"
                then ["--disable-dev-shm-usage"; "--remote-debugging-port=9222"]
                else []) ++ ["--no-sandbox"])%list
         /\ experimental o = [("prefs", JObj [("download_restrictions", JInt 3)])]
     | Safari =>
         selenium_web_browser w = "safari"
         /\ skipn 3 (arguments o) = [] /\ experimental o = []
     | Firefox =>
         selenium_web_browser w = "firefox"
         /\ skipn 3 (arguments o) = [] /\ experimental o = []
     end.
Proof.
  intros w url o Hin.
  destruct (run (scrape_text_with_selenium w url)) as [r tr] eqn:H.
  cbn [snd] in Hin.
  unfold scrape_text_with_selenium, options_available in H. unfold_m.
  destruct (String.eqb_spec (selenium_web_browser w) "chrome") as [Ec|_];
    [|destruct (String.eqb_spec (selenium_web_browser w) "safari") as [Es|_];
      [|destruct (String.eqb_spec (selenium_web_browser w) "firefox") as [Ef|_]]].
  - rewrite Ec in H. cbn [String.eqb Ascii.eqb Bool.eqb] in H. cbn beta iota in H.
    destruct (String.eqb (platform w) "linux" || String.eqb (platform w) "linux2");
      crack w H; inversion H; subst; clear H;
      cbn in Hin; intuition (try discriminate);
      match goal with E : StartBrowser _ = StartBrowser _ |- _ => inversion E; subst end;
      repeat split; assumption.
  - rewrite Es in H. cbn [String.eqb Ascii.eqb Bool.eqb] in H. cbn beta iota in H.
    crack w H; inversion H; subst; clear H;
      cbn in Hin; intuition (try discriminate);
      match goal with E : StartBrowser _ = StartBrowser _ |- _ => inversion E; subst end;
      repeat split; assumption.
  - try rewrite Ef in H. cbn [String.eqb Ascii.eqb Bool.eqb] in H. cbn beta iota in H.
    crack w H; inversion H; subst; clear H;
      cbn in Hin; intuition (try discriminate);
      match goal with E : StartBrowser _ = StartBrowser _ |- _ => inversion E; subst end;
      repeat split; assumption.
  - cbn beta iota in H. inversion H; subst. cbn in Hin. intuition discriminate.
Qed.

Lemma browser_options_witness :
  firstn 3 ["user-agent=Mozilla/5.0"; "--headless"; "--enable-javascript";
            "--disable-dev-shm-usage"; "--remote-debugging-port=9222"; "--no-sandbox"]
  = ["user-agent=" ++ user_agent (calm "chrome"); "--headless"; "--enable-javascript"]
  /\ selenium_web_browser (calm "chrome") = "chrome"
  /\ skipn 3 ["user-agent=Mozilla/5.0"; "--headless"; "--enable-javascript";
              "--disable-dev-shm-usage"; "--remote-debugging-port=9222"; "--no-sandbox"]
     = ["--disable-dev-shm-usage"; "--remote-debugging-port=9222"; "--no-sandbox"]
  /\ [("prefs", JObj [("download_restrictions", JInt 3)])]
     = [("prefs", JObj [("download_restrictions", JInt 3)])].
Proof.
  apply (browser_options (calm "chrome") example_url
           {| kind := Chrome;
              arguments := ["user-agent=Mozilla/5.0"; "--headless"; "--enable-javascript";
                            "--disable-dev-shm-usage"; "--remote-debugging-port=9222";
                            "--no-sandbox"];
              experimental := [("prefs", JObj [("download_restrictions", JInt 3)])] |}).
  vm_compute. right. left. reflexivity.
Defined.

(** *** The content of the page *)

(** X15. For an arXiv URL, once the page is loaded, a retriever that
    finds no document makes [scrape_text_with_selenium] raise
    [IndexError]: the first document is taken without a check. *)
Theorem arxiv_without_documents : forall w url,
  supported_browser (selenium_web_browser w) = true ->
  is_ok (gecko_install w) = true ->
  (forall o service, new_driver w o service = Ok tt) ->
  driver_get w url = Ok tt ->
  wait_for_body w url = Ok tt ->
  endswith url ".pdf" = false ->
  contains "arxiv" url = true ->
  (forall query, arxiv_documents w query = Ok []) ->
  fst (run (scrape_text_with_selenium w url)) = Raise (IndexError "list index out of range").
Proof.
  intros w url Hb Hg Hn Hget Hwait Hpdf Harxiv Hdocs.
  destruct (run (scrape_text_with_selenium w url)) as [r tr] eqn:H.
  unfold scrape_text_with_selenium in H. unfold_m.
  destruct (WebScrapeFacts.last_segment url) as (seg & Hseg & _). rewrite Hseg in H.
  rewrite Hpdf, Harxiv in H.
  unfold supported_browser, options_available in *.
  destruct (gecko_install w); [|discriminate].
  repeat match type of H with
         | context [String.eqb (selenium_web_browser w) ?p] =>
             destruct (String.eqb (selenium_web_browser w) p) eqn:?
         end; try discriminate; cbn beta iota in H;
    rewrite ?Hn, ?Hget, ?Hwait, ?Hdocs in H; cbn beta iota in H;
    rewrite ?Hget, ?Hwait, ?Hdocs in H; cbn beta iota in H;
    rewrite ?Hdocs in H; cbn beta iota in H;
    inversion H; reflexivity.
Qed.

Lemma arxiv_without_documents_witness :
  fst (run (scrape_text_with_selenium (no_papers "safari") arxiv_url))
  = Raise (IndexError "list index out of range").
Proof.
  apply arxiv_without_documents; reflexivity.
Defined.

(** X16. Which extractor is called is decided by the shape of the URL
    alone: the PDF extractor is called, on the URL itself, only for a URL
    of the form [pre ++ ".pdf"]; the arXiv retriever only for a URL not of
    that form in which "arxiv" occurs, and on the final segment of the
    URL; the script that reads the DOM only for a URL that is of neither
    form. *)
Theorem extraction_by_url_shape : forall w url ev,
  In ev (extraction_calls (snd (run (scrape_text_with_selenium w url)))) ->
  match ev with
  | PdfExtract u => u = url /\ exists pre, url = pre ++ ".pdf"
  | ArxivRetrieve seg =>
      ~ (exists pre, url = pre ++ ".pdf")
      /\ (exists x y, url = x ++ "arxiv" ++ y)
      /\ final_segment url seg
  | DomHtml _ =>
      ~ (exists pre, url = pre ++ ".pdf")
      /\ ~ (exists x y, url = x ++ "arxiv" ++ y)
  | _ => False
  end.
Proof.
  intros w url ev Hin.
  destruct (run (scrape_text_with_selenium w url)) as [r tr] eqn:H.
  cbn [snd] in Hin.
  unfold scrape_text_with_selenium in H. unfold_m.
  destruct (WebScrapeFacts.last_segment url) as (seg & Hseg & Hfinal).
  rewrite Hseg in H.
  destruct (endswith url ".pdf") eqn:Hpdf; [|destruct (contains "arxiv" url) eqn:Harxiv].
  all: crack w H; inversion H; subst; clear H.
  all: unfold extraction_calls in Hin; rewrite ?filter_app in Hin;
    cbn [filter is_extraction app] in Hin.
  all: repeat match type of Hin with
              | In _ [] => contradiction
              | In _ (_ :: _) => destruct Hin as [<-|Hin]
              end.
  all: repeat split;
    try (apply PyMore.endswith_iff; assumption);
    try (apply PyMore.contains_iff; assumption);
    try assumption;
    try (intros Hc; apply PyMore.endswith_iff in Hc; congruence);
    try (intros Hc; apply PyMore.contains_iff in Hc; congruence);
    try apply Hfinal.
Qed.

Lemma extraction_by_url_shape_witness :
  "https://arxiv.org/pdf/1706.03762.pdf" = "https://arxiv.org/pdf/1706.03762.pdf"
  /\ exists pre, "https://arxiv.org/pdf/1706.03762.pdf" = pre ++ ".pdf".
Proof.
  apply (extraction_by_url_shape (calm "chrome") "https://arxiv.org/pdf/1706.03762.pdf"
           (PdfExtract "https://arxiv.org/pdf/1706.03762.pdf")).
  vm_compute. left. reflexivity.
Defined.

Lemma fold_text : forall elements text,
  fold_left (fun text element => text ++ element ++ nl ++ nl) elements text
  = text ++ get_text elements.
Proof.
  unfold get_text.
  induction elements as [|e rest IH]; intros text; cbn [fold_left].
  - now rewrite PyFacts.append_empty_r.
  - rewrite IH. rewrite (IH (EmptyString ++ e ++ nl ++ nl)).
    now rewrite PyFacts.append_assoc.
Qed.

(** X17. [get_text] lays the texts of the elements end to end, each
    followed by two newlines: the text of a list of elements is the text
    of its first part followed by the text of the rest, and no elements
    give the empty text. *)
Theorem get_text_app : forall front back,
  get_text (front ++ back) = get_text front ++ get_text back
  /\ get_text [] = EmptyString
  /\ forall element, get_text [element] = element ++ nl ++ nl.
Proof.
  intros front back. repeat split.
  unfold get_text at 1. rewrite fold_left_app.
  fold (get_text front). apply fold_text.
Qed.

End WebScrapeMore.
